(** * NumPy_Revised: a shallow embedding of the Decimal toolkit

    The development follows the Python package file by file:
    - [Dec]        the part of Python's [decimal] arithmetic the package
                   relies on (finite numbers, default traps, ROUND_HALF_EVEN);
    - values, exceptions and the state/error monad;
    - [condint.py], [stabilze.py], [maths_cleaned.py], [arrays.py];
    - the properties, one section per topic.

    Numbers are finite throughout: NaN and the infinities of [float] and
    [Decimal] are outside the model. *)

From Stdlib Require Import ZArith NArith QArith Qcanon String Ascii List Lia Bool.
From Stdlib Require Import DecimalString DecimalZ DecimalPos DecimalFacts.
From stdpp Require Import base option gmap strings list.

Set Warnings "-register-all".

Local Open Scope string_scope.
Local Open Scope Z_scope.

(** ** Exceptions and results *)

(** The exception classes that the package raises or lets through.
    Messages are kept where the source spells them. [Diverges] is not a
    Python exception: it stands for a [while] loop that has used up the
    bound the model puts on it, that is, for a call that does not return. *)
Inductive exn : Type :=
  | ValueError (msg : string)
  | StabilizeError (msg : string)
  | TypeError (msg : string)
  | AttributeError (msg : string)
  | IndexError
  | ZeroDivisionError
  | OverflowError
  | DecimalDivisionByZero
  | DecimalInvalidOperation
  | DecimalOverflow
  | Diverges.

(** [isinstance(e, ZeroDivisionError)]: the builtin class and
    [decimal.DivisionByZero], which derives from it. *)
Definition is_ZeroDivisionError (e : exn) : bool :=
  match e with
  | ZeroDivisionError | DecimalDivisionByZero => true
  | _ => false
  end.

Inductive result (A : Type) : Type :=
  | Ok (a : A)
  | Raise (e : exn).
Arguments Ok {A} a.
Arguments Raise {A} e.

Definition rbind {A B} (r : result A) (k : A -> result B) : result B :=
  match r with
  | Ok a => k a
  | Raise e => Raise e
  end.

Declare Scope res_scope.
Delimit Scope res_scope with res.
Notation "'let?' x ':=' r 'in' k" := (rbind r (fun x => k))
  (at level 10, x pattern, r at level 100, k at level 200) : res_scope.
Local Open Scope res_scope.

(** A list comprehension whose body may raise: the first failure wins. *)
Fixpoint rmap {A B} (f : A -> result B) (l : list A) : result (list B) :=
  match l with
  | [] => Ok []
  | x :: l' =>
      let? y := f x in
      let? ys := rmap f l' in
      Ok (y :: ys)
  end.

(** ** Decimal arithmetic *)

Module Dec.

(** A finite [Decimal]: sign, coefficient and exponent, as in
    [Decimal.as_tuple()]. *)
Record t : Type := mk { sign : bool; coeff : N; exp : Z }.

(** The arithmetic context: [getcontext()]. *)
Record context : Type := Context { prec : Z; Emax : Z; Emin : Z }.

Definition Etiny (c : context) : Z := Emin c - prec c + 1.
Definition Etop (c : context) : Z := Emax c - prec c + 1.

(** The default context with the precision the package installs. *)
Definition default (p : Z) : context :=
  {| prec := p; Emax := 999999; Emin := -999999 |}.

Definition pow10 (k : Z) : N := (10 ^ Z.to_N k)%N.

Fixpoint ndigits_fuel (fuel : nat) (n : N) : Z :=
  match fuel with
  | O => 1
  | S f => if (n <? 10)%N then 1 else 1 + ndigits_fuel f (n / 10)%N
  end.

(** [len(str(n))] *)
Definition ndigits (n : N) : Z := ndigits_fuel (N.size_nat n) n.

Definition is_zero (d : t) : bool := (coeff d =? 0)%N.

(** [adjusted()]: the exponent of the leading digit. *)
Definition adjusted (d : t) : Z := exp d + ndigits (coeff d) - 1.

(** [_round_half_even] on a coefficient of which the last [drop] digits
    go: 1 rounds up, 0 is exact, -1 truncates a nonzero tail. *)
Definition round_half_even (cf : N) (drop : Z) : Z :=
  let q := (cf / pow10 drop)%N in
  let r := (cf mod pow10 drop)%N in
  let half := (5 * pow10 (drop - 1))%N in
  if (r =? half)%N && N.even q then -1
  else if (half <=? r)%N then 1
  else if (r =? 0)%N then 0
  else -1.

(** [Decimal._fix]: round to the context, clamp = 0. Of the signals only
    Overflow is trapped. *)
Definition fix_ (c : context) (d : t) : result t :=
  if is_zero d then
    let new_exp := Z.min (Z.max (exp d) (Etiny c)) (Emax c) in
    Ok (mk (sign d) 0 new_exp)
  else
    let exp_min := ndigits (coeff d) + exp d - prec c in
    if Etop c <? exp_min then Raise DecimalOverflow
    else
      let exp_min := if exp_min <? Etiny c then Etiny c else exp_min in
      if exp d <? exp_min then
        let digits := ndigits (coeff d) + exp d - exp_min in
        let '(cf, ex) :=
          if digits <? 0 then (1%N, exp_min - 1) else (coeff d, exp d) in
        let drop := exp_min - ex in
        let changed := round_half_even cf drop in
        let kept := (cf / pow10 drop)%N in
        let '(cf', exp_min') :=
          if 0 <? changed then
            let up := (kept + 1)%N in
            if prec c <? ndigits up then ((up / 10)%N, exp_min + 1)
            else (up, exp_min)
          else (kept, exp_min) in
        if Etop c <? exp_min' then Raise DecimalOverflow
        else Ok (mk (sign d) cf' exp_min')
      else Ok d.

(** [Decimal._rescale(exp, ROUND_HALF_EVEN)] *)
Definition rescale (d : t) (e : Z) : t :=
  if is_zero d then mk (sign d) 0 e
  else if e <=? exp d then mk (sign d) (coeff d * pow10 (exp d - e))%N e
  else
    let digits := ndigits (coeff d) + exp d - e in
    let '(cf, ex) :=
      if digits <? 0 then (1%N, e - 1) else (coeff d, exp d) in
    let drop := e - ex in
    let changed := round_half_even cf drop in
    let kept := (cf / pow10 drop)%N in
    mk (sign d) (if changed =? 1 then (kept + 1)%N else kept) e.

(** [_normalize(op1, op2, prec)] on the working representations
    (coefficient, exponent): both leave with the same exponent. *)
Definition normalize (p : Z) (op1 op2 : N * Z) : (N * Z) * (N * Z) :=
  let swap := snd op1 <? snd op2 in
  let '(tmp, other) := if swap then (op2, op1) else (op1, op2) in
  let tmp_len := ndigits (fst tmp) in
  let other_len := ndigits (fst other) in
  let e := snd tmp + Z.min (-1) (tmp_len - p - 2) in
  let other := if other_len + snd other - 1 <? e then (1%N, e) else other in
  let tmp := ((fst tmp * pow10 (snd tmp - snd other))%N, snd other) in
  if swap then (other, tmp) else (tmp, other).

(** [Decimal.__add__] *)
Definition add (c : context) (a b : t) : result t :=
  let e := Z.min (exp a) (exp b) in
  if is_zero a && is_zero b then
    fix_ c (mk (sign a && sign b) 0 e)
  else if is_zero a then
    fix_ c (rescale b (Z.max e (exp b - prec c - 1)))
  else if is_zero b then
    fix_ c (rescale a (Z.max e (exp a - prec c - 1)))
  else
    let '((i1, e1), (i2, _)) :=
      normalize (prec c) (coeff a, exp a) (coeff b, exp b) in
    if negb (eqb (sign a) (sign b)) then
      if (i1 =? i2)%N then fix_ c (mk false 0 e)
      else if (i1 <? i2)%N then fix_ c (mk (sign b) (i2 - i1) e1)
      else fix_ c (mk (sign a) (i1 - i2) e1)
    else fix_ c (mk (sign a) (i1 + i2) e1).

Definition copy_negate (d : t) : t := mk (negb (sign d)) (coeff d) (exp d).
Definition copy_abs (d : t) : t := mk false (coeff d) (exp d).

(** [Decimal.__sub__] *)
Definition sub (c : context) (a b : t) : result t := add c a (copy_negate b).

(** [Decimal.__neg__] and [Decimal.__abs__] round, too. *)
Definition neg (c : context) (d : t) : result t :=
  if is_zero d then fix_ c (copy_abs d) else fix_ c (copy_negate d).

Definition abs (c : context) (d : t) : result t :=
  if sign d then neg c d else fix_ c d.

(** [Decimal.__mul__] *)
Definition mul (c : context) (a b : t) : result t :=
  let s := xorb (sign a) (sign b) in
  let e := exp a + exp b in
  if is_zero a || is_zero b then fix_ c (mk s 0 e)
  else fix_ c (mk s (coeff a * coeff b) e).

(** The loop of [__truediv__] that brings an exact quotient towards its
    ideal exponent. A nonzero coefficient loses a digit per turn, so its
    length bounds the turns. *)
Fixpoint strip_zeros (fuel : nat) (cf : N) (e ideal : Z) : N * Z :=
  match fuel with
  | O => (cf, e)
  | S f =>
      if (e <? ideal) && (cf mod 10 =? 0)%N
      then strip_zeros f (cf / 10)%N (e + 1) ideal
      else (cf, e)
  end.

(** [Decimal.__truediv__] *)
Definition truediv (c : context) (a b : t) : result t :=
  let s := xorb (sign a) (sign b) in
  if is_zero b then
    if is_zero a then Raise DecimalInvalidOperation
    else Raise DecimalDivisionByZero
  else if is_zero a then fix_ c (mk s 0 (exp a - exp b))
  else
    let shift := ndigits (coeff b) - ndigits (coeff a) + prec c + 1 in
    let e := exp a - exp b - shift in
    let '(q, r) :=
      if 0 <=? shift
      then N.div_eucl (coeff a * pow10 shift) (coeff b)
      else N.div_eucl (coeff a) (coeff b * pow10 (- shift)) in
    let '(q, e) :=
      if negb (r =? 0)%N then
        ((if (q mod 5 =? 0)%N then q + 1 else q)%N, e)
      else strip_zeros (Z.to_nat (ndigits q)) q e (exp a - exp b) in
    fix_ c (mk s q e).

(** [Decimal._cmp]: -1, 0 or 1. *)
Definition cmp (a b : t) : Z :=
  let sgn (d : t) : Z := if sign d then -1 else 1 in
  if is_zero a then
    if is_zero b then 0 else - sgn b
  else if is_zero b then sgn a
  else if sign a && negb (sign b) then -1
  else if negb (sign a) && sign b then 1
  else
    let aa := adjusted a in
    let ab := adjusted b in
    if aa =? ab then
      let pa := (coeff a * pow10 (exp a - exp b))%N in
      let pb := (coeff b * pow10 (exp b - exp a))%N in
      if (pa =? pb)%N then 0
      else if (pa <? pb)%N then - sgn a
      else sgn a
    else if ab <? aa then sgn a
    else - sgn a.

Definition eqb (a b : t) : bool := cmp a b =? 0.
Definition ltb (a b : t) : bool := cmp a b <? 0.
Definition gtb (a b : t) : bool := 0 <? cmp a b.
Definition leb (a b : t) : bool := cmp a b <=? 0.

(** [Decimal(n)] for an [int]: exact, whatever the context. *)
Definition of_Z (n : Z) : t := mk (n <? 0) (Z.abs_N n) 0.

(** [Decimal.__int__]: truncation towards zero. *)
Definition to_Z (d : t) : Z :=
  let m := if 0 <=? exp d
           then (coeff d * pow10 (exp d))%N
           else (coeff d / pow10 (- exp d))%N in
  if sign d then - Z.of_N m else Z.of_N m.

(** [Decimal.to_integral_value()] *)
Definition to_integral_value (d : t) : t :=
  if 0 <=? exp d then d else rescale d 0.

(** The rational a decimal denotes. *)
Definition to_Q (d : t) : Q :=
  let m := Z.of_N (coeff d) in
  let m := if sign d then (- m)%Z else m in
  if 0 <=? exp d then inject_Z (m * 10 ^ exp d)
  else Qmake m (Z.to_pos (10 ^ (- exp d))).

End Dec.

(** ** Python values *)

(** A finite [float]: (-1)^sign * mant * 2^expo. *)
Record pyfloat : Type := PyFloat { fsign : bool; fmant : N; fexpo : Z }.

(** The number of trailing zero bits. *)
Fixpoint pos_ctz (p : positive) : Z :=
  match p with
  | xO q => 1 + pos_ctz q
  | _ => 0
  end.

(** [abs(f).as_integer_ratio()] as (numerator, log2 of the denominator). *)
Definition float_ratio (f : pyfloat) : N * Z :=
  match fmant f with
  | N0 => (0%N, 0)
  | Npos p =>
      if 0 <=? fexpo f then ((Npos p * 2 ^ Z.to_N (fexpo f))%N, 0)
      else
        let t := Z.min (pos_ctz p) (- fexpo f) in
        ((Npos p / 2 ^ Z.to_N t)%N, - fexpo f - t)
  end.

(** [float.is_integer()] *)
Definition float_is_integer (f : pyfloat) : bool := snd (float_ratio f) =? 0.

(** [int(f)]: truncation towards zero. *)
Definition float_to_Z (f : pyfloat) : Z :=
  let '(n, k) := float_ratio f in
  let m := Z.of_N (n / 2 ^ Z.to_N k)%N in
  if fsign f then - m else m.

(** [Decimal.from_float(f)]: exact. *)
Definition dec_from_float (f : pyfloat) : Dec.t :=
  let '(n, k) := float_ratio f in
  Dec.mk (fsign f) (n * 5 ^ Z.to_N k)%N (- k).

Definition float_to_Q (f : pyfloat) : Q :=
  let '(n, k) := float_ratio f in
  let m := if fsign f then - Z.of_N n else Z.of_N n in
  Qmake m (Z.to_pos (2 ^ k)).

(** What the package passes around. [VFraction] is a [Fraction], which
    Python keeps in lowest terms; [VRef] is a reference to an array object
    of the heap; the values of the keyword options are set apart below. *)
Inductive value : Type :=
  | VNone
  | VBool (b : bool)
  | VInt (n : Z)
  | VFloat (f : pyfloat)
  | VDecimal (d : Dec.t)
  | VFraction (num : Z) (den : positive)
  | VList (l : list value)
  | VRef (r : nat).

(** [int(x)] *)
Definition py_int (x : value) : result Z :=
  match x with
  | VBool b => Ok (if b then 1 else 0)
  | VInt n => Ok n
  | VFloat f => Ok (float_to_Z f)
  | VDecimal d => Ok (Dec.to_Z d)
  | VFraction n d => Ok (Z.quot n (Zpos d))
  | VNone | VList _ | VRef _ =>
      Raise (TypeError "int() argument must be a string, a bytes-like object or a real number")
  end.

(** The exact rational behind a number. *)
Definition num_to_Q (x : value) : option Q :=
  match x with
  | VBool b => Some (inject_Z (if b then 1 else 0))
  | VInt n => Some (inject_Z n)
  | VFloat f => Some (float_to_Q f)
  | VDecimal d => Some (Dec.to_Q d)
  | VFraction n d => Some (Qmake n d)
  | _ => None
  end.

(** ** Dictionary keys

    A dict finds a key by [hash] and [==]. Numbers of all types hash and
    compare by their exact value, objects by identity, and a list cannot
    be hashed. A key atom is that normal form. *)
Inductive katom : Type :=
  | KNone
  | KNum (n : Z) (d : positive)
  | KRef (r : nat).

#[global] Instance katom_eq_dec : EqDecision katom.
Proof. solve_decision. Defined.

#[global] Instance katom_countable : Countable katom.
Proof.
  refine (inj_countable'
    (fun k => match k with
              | KNone => inl tt
              | KNum n d => inr (inl (n, d))
              | KRef r => inr (inr r)
              end)
    (fun s => match s with
              | inl _ => KNone
              | inr (inl (n, d)) => KNum n d
              | inr (inr r) => KRef r
              end) _).
  intros []; reflexivity.
Defined.

Definition num_key (q : Q) : katom :=
  let r := Qred q in KNum (Qnum r) (Qden r).

Definition hash_value (x : value) : option katom :=
  match x with
  | VNone => Some KNone
  | VRef r => Some (KRef r)
  | VList _ => None
  | _ => num_key <$> num_to_Q x
  end.

(** [tuple(args)] as a key: every component has to be hashable. *)
Definition hash_args (args : list value) : option (list katom) :=
  mapM hash_value args.

(** ** Options, array objects and the program state *)

(** The value of a keyword argument: [to_type] or [cond]. *)
Inductive kwval : Type :=
  | KwToType (t : option string)
  | KwCond (c : option (value -> bool)).

(** What an array keeps in [data]: a Decimal, or a list of such items (a
    row of an [Array2], a matrix of an [Array3] or a row of it). *)
Inductive elem : Type :=
  | EDec (d : Dec.t)
  | EList (l : list elem).

(** An item of [data] as the value a caller gets to see. *)
Fixpoint elem_value (e : elem) : value :=
  match e with
  | EDec d => VDecimal d
  | EList l => VList (elem_value <$> l)
  end.

(** The class of an array object. A direct instance of [BaseArray] behaves
    as an [Array1], whose three methods repeat the inherited ones. *)
Inductive array_class : Type := CArray1 | CArray2 | CArray3.

(** An array object: its class and its three attributes. *)
Record array : Type :=
  Array { cls : array_class;
          data : list elem;
          to_type : option string;
          cond : option (value -> bool) }.

(** What goes between the brackets of [self[...]]: an [int] or a slice
    [start:stop] with either bound optional. Slices with a step are not
    modelled. *)
Inductive index : Type :=
  | IInt (i : Z)
  | ISlice (start stop : option Z).

(** The mutable state of a session: the array objects, addressed by
    identity, and the [cache] dict that each use of [stabilize] closes
    over, addressed by the name of the function it decorates. *)
Record state : Type :=
  State { heap : list array;
          caches : gmap string (gmap (list katom) value) }.

Definition initial : state := State [] ∅.

(** Computations that read and write the state and may raise. *)
Definition M (A : Type) : Type := state -> result A * state.

Definition ret {A} (a : A) : M A := fun st => (Ok a, st).
Definition raise {A} (e : exn) : M A := fun st => (Raise e, st).
Definition lift {A} (r : result A) : M A := fun st => (r, st).
Definition bind {A B} (m : M A) (k : A -> M B) : M B :=
  fun st =>
    match m st with
    | (Ok a, st') => k a st'
    | (Raise e, st') => (Raise e, st')
    end.

Notation "'let*' x ':=' m 'in' k" := (bind m (fun x => k))
  (at level 10, x pattern, m at level 100, k at level 200) : res_scope.

Definition cache_of (name : string) (st : state) : gmap (list katom) value :=
  default ∅ (caches st !! name).

Definition cache_put (name : string) (key : list katom) (v : value)
    (st : state) : state :=
  State (heap st) (<[name := <[key := v]> (cache_of name st)]> (caches st)).

(** * The package *)

Section Package.

(** [getcontext()]: [maths_cleaned] sets its precision to 50 on import and
    [arrays] to 1000, so the value in force depends on what was imported
    last. *)
Variable ctx : Dec.context.

(** The builtin [float()]. *)
Variable float_of : value -> result value.

(** A bound on the turns of a [while] loop. *)
Variable loop_bound : nat.

(** ** condint.py *)

Definition to_type_is (t : option string) (s : string) : bool :=
  match t with
  | Some s' => String.eqb s' s
  | None => false
  end.

Definition is_none (t : option string) : bool :=
  match t with None => true | Some _ => false end.

Definition is_float (x : value) : bool :=
  match x with VFloat _ => true | _ => false end.

Definition is_exact_int (x : value) : bool :=
  match x with
  | VBool _ | VInt _ => true
  | VFloat f => float_is_integer f
  | VDecimal d => Dec.eqb d (Dec.to_integral_value d)
  | VFraction _ d => (d =? 1)%positive
  | _ => false
  end.

Definition condint (x : value) (to_type : option string)
    (cond : option (value -> bool)) : result value :=
  let cond := match cond with None => fun _ => true | Some c => c end in
  let exact := is_exact_int x in
  if to_type_is to_type "int" && cond x && exact then
    match x with
    | VFraction n _ => Ok (VInt n)
    | _ => let? n := py_int x in Ok (VInt n)
    end
  else if to_type_is to_type "float" && cond x then float_of x
  else if is_none to_type && cond x && exact && is_float x then
    let? n := py_int x in Ok (VInt n)
  else Ok x.

Definition condint_list (lst : list value) (to_type : option string)
    (cond : option (value -> bool)) : result (list value) :=
  rmap (fun x => condint x to_type cond) lst.

(** ** stabilze.py *)

Definition stabilize_msg : string :=
  "Cannot divide by zero. Please change the denominator.".

(** The body of [wrapper], for the cache called [name]. *)
Definition wrapper (name : string) (func : list value -> M value)
    (args : list value) : M value :=
  fun st =>
    match hash_args args with
    | None => (Raise (TypeError "unhashable type: 'list'"), st)
    | Some key =>
        match cache_of name st !! key with
        | Some r => (Ok r, st)
        | None =>
            match func args st with
            | (Ok r, st') => (Ok r, cache_put name key r st')
            | (Raise e, st') =>
                if is_ZeroDivisionError e
                then (Raise (StabilizeError stabilize_msg), st')
                else (Raise e, st')
            end
        end
    end.

(** A decorated function as its callers see it: [wrapper] has the
    signature of positional arguments only, so a call that passes a keyword is refused at
    the call, before the body of [wrapper] runs. *)
Definition stabilized : Type := list value -> list (string * kwval) -> M value.

Definition keyword_msg (k : string) : string :=
  "wrapper() got an unexpected keyword argument '" ++ k ++ "'".

Definition stabilize (name : string) (func : list value -> M value)
    : stabilized :=
  fun args kwargs =>
    match kwargs with
    | [] => wrapper name func args
    | (k, _) :: _ => raise (TypeError (keyword_msg k))
    end.

(** The call [func] receives from [wrapper], for a function declared [(x, *, to_type=None,
    cond=None)], and for one declared [(x, y, *, to_type=None, cond=None)]:
    the options keep their defaults. *)
Definition unary (f : value -> option string -> option (value -> bool) -> M value)
    (args : list value) : M value :=
  match args with
  | [x] => f x None None
  | _ => raise (TypeError "wrong number of positional arguments")
  end.

Definition binary
    (f : value -> value -> option string -> option (value -> bool) -> M value)
    (args : list value) : M value :=
  match args with
  | [x; y] => f x y None None
  | _ => raise (TypeError "wrong number of positional arguments")
  end.

(** ** maths_cleaned.py *)

(** An [int] where the constructor of [Decimal] wants one; a [bool] is
    an [int]. *)
Definition as_int (v : value) : option Z :=
  match v with
  | VInt n => Some n
  | VBool b => Some (if b then 1 else 0)
  | _ => None
  end.

(** Whether an [int] fits the C type the constructor reads it into
    (64 bits). *)
Definition fits_c_long (n : Z) : bool :=
  (- 2 ^ 63 <=? n) && (n <? 2 ^ 63).

Definition digits_msg : string := "coefficient must be a tuple of digits".

(** The coefficient spelled by a sequence of digits, most significant
    first. *)
Fixpoint coeff_of_digits (acc : N) (l : list value) : result N :=
  match l with
  | [] => Ok acc
  | v :: l' =>
      match as_int v with
      | None => Raise (ValueError digits_msg)
      | Some n =>
          if negb (fits_c_long n) then Raise OverflowError
          else if (n <? 0) || (9 <? n) then Raise (ValueError digits_msg)
          else coeff_of_digits (10 * acc + Z.to_N n)%N l'
      end
  end.

(** [Decimal(l)] for a list [l]: the constructor reads it as
    [sign, digits, exponent], checked in the order sign, exponent, digits.
    The number is built exactly, within the bounds of the largest
    context. *)
Definition dec_from_sequence (l : list value) : result Dec.t :=
  match l with
  | [s; ds; e] =>
      match as_int s with
      | None =>
          Raise (ValueError "sign must be an integer with the value 0 or 1")
      | Some sg =>
          if negb (fits_c_long sg) then Raise OverflowError
          else if negb ((sg =? 0) || (sg =? 1)) then
            Raise (ValueError "sign must be an integer with the value 0 or 1")
          else
            match as_int e with
            | None => Raise (ValueError "exponent must be an integer")
            | Some ex =>
                if negb (fits_c_long ex) then Raise OverflowError
                else
                  match ds with
                  | VList digits =>
                      let? c := coeff_of_digits 0 digits in
                      if (ex + Dec.ndigits c - 1 <=? 999999999999999999)
                         && (-1999999999999999997 <=? ex)
                      then Ok (Dec.mk (sg =? 1) c ex)
                      else Raise DecimalInvalidOperation
                  | _ => Raise (ValueError digits_msg)
                  end
            end
      end
  | _ => Raise (ValueError "argument must be a sequence of length 3")
  end.

Definition _to_decimal (x : value) : result Dec.t :=
  match x with
  | VDecimal d => Ok d
  | VFraction n d => Dec.truediv ctx (Dec.of_Z n) (Dec.of_Z (Zpos d))
  | VBool b => Ok (Dec.of_Z (if b then 1 else 0))
  | VInt n => Ok (Dec.of_Z n)
  | VFloat f => Ok (dec_from_float f)
  | VList l => dec_from_sequence l
  | VNone | VRef _ =>
      Raise (TypeError "conversion to Decimal is not supported")
  end.

Definition dec_div_msg : string := "Cannot divide by zero. Please change.".

Definition dec_div (a b : value) : result Dec.t :=
  let? a := _to_decimal a in
  let? b := _to_decimal b in
  if Dec.eqb b (Dec.of_Z 0) then Raise (ValueError dec_div_msg)
  else Dec.truediv ctx a b.

Definition fact_func (n : value) (to_type : option string)
    (cond : option (value -> bool)) : result value :=
  let? n := py_int n in
  if n <? 0 then Raise (ValueError "Factorial not defined for negatives")
  else
    let res := foldl (fun r i => r * i) 1 (seqZ 1 n) in
    condint (VInt res) to_type cond.

Definition fact : stabilized :=
  stabilize "fact" (unary (fun n t c => lift (fact_func n t c))).

(** The most digits [str] writes for an [int]: CPython 3.11 and later
    refuse longer numbers, here with the limit at its default. *)
Definition int_max_str_digits : Z := 4300.

Definition str_digits_msg : string :=
  "Exceeds the limit (4300 digits) for integer string conversion; use sys.set_int_max_str_digits() to increase the limit".

(** [str(n)] for an [int]. *)
Definition str_int (n : Z) : result string :=
  if int_max_str_digits <? Dec.ndigits (Z.abs_N n)
  then Raise (ValueError str_digits_msg)
  else Ok (NilZero.string_of_int (Z.to_int n)).

(** [int(d)] for a string of one character. *)
Definition int_of_char (c : ascii) : result Z :=
  let k := Z.of_N (N_of_ascii c) in
  if (48 <=? k) && (k <=? 57) then Ok (k - 48)
  else Raise (ValueError ("invalid literal for int() with base 10: '"
                            ++ String c "" ++ "'")).

(** [sum(int(d) for d in s)] *)
Fixpoint digit_sum (s : string) : result Z :=
  match s with
  | EmptyString => Ok 0
  | String c s' =>
      let? d := int_of_char c in
      let? r := digit_sum s' in
      Ok (d + r)
  end.

(** [a % b] on [int]s *)
Definition py_mod (a b : Z) : result Z :=
  if b =? 0 then Raise ZeroDivisionError else Ok (a mod b).

Definition is_harshad_func (n : value) : result value :=
  let? n := py_int n in
  let? digits := str_int n in
  let? s := digit_sum digits in
  let? r := py_mod n s in
  Ok (VBool (r =? 0)).

Definition is_harshad : stabilized :=
  stabilize "is_harshad"
    (fun args => match args with
                 | [n] => lift (is_harshad_func n)
                 | _ => raise (TypeError "wrong number of positional arguments")
                 end).



(** One turn of the loop of [sqrt]. *)
Definition sqrt_step (x guess : Dec.t) : result Dec.t :=
  let? q := dec_div (VDecimal x) (VDecimal guess) in
  let? s := Dec.add ctx guess q in
  Dec.truediv ctx s (Dec.of_Z 2).

(** [for _ in range(n): g = step(g)] *)
Fixpoint iterate (n : nat) (step : Dec.t -> result Dec.t) (g : Dec.t)
    : result Dec.t :=
  match n with
  | O => Ok g
  | S n' => let? g' := step g in iterate n' step g'
  end.

Definition sqrt_msg : string := "Cannot take square root of negative".

Definition sqrt_func (x : value) (to_type : option string)
    (cond : option (value -> bool)) : result value :=
  let? x := _to_decimal x in
  if Dec.ltb x (Dec.of_Z 0) then Raise (ValueError sqrt_msg)
  else
    let? guess := Dec.truediv ctx x (Dec.of_Z 2) in
    let? guess := iterate 30 (sqrt_step x) guess in
    condint (VDecimal guess) to_type cond.

Definition sqrt : stabilized :=
  stabilize "sqrt" (unary (fun x t c => lift (sqrt_func x t c))).

(** [Decimal("1e-40")] *)
Definition eps40 : Dec.t := Dec.mk false 1 (-40).

(** The [while] loop shared by [sin] and [cos]; [den n] is the divisor of
    the n-th factor. *)
Fixpoint series_loop (fuel : nat) (den : Z -> Z) (x term res : Dec.t)
    (n : Z) : result Dec.t :=
  match fuel with
  | O => Raise Diverges
  | S fuel' =>
      let? a := Dec.abs ctx term in
      if Dec.gtb a eps40 then
        let? nx := Dec.neg ctx x in
        let? xx := Dec.mul ctx nx x in
        let? f := Dec.truediv ctx xx (Dec.of_Z (den n)) in
        let? term' := Dec.mul ctx term f in
        let? res' := Dec.add ctx res term' in
        series_loop fuel' den x term' res' (n + 1)
      else Ok res
  end.

Definition sin_func (x : value) (to_type : option string)
    (cond : option (value -> bool)) : result value :=
  let? x := _to_decimal x in
  let? r := series_loop loop_bound (fun n => (2 * n) * (2 * n + 1)) x x x 1 in
  condint (VDecimal r) to_type cond.

Definition sin : stabilized :=
  stabilize "sin" (unary (fun x t c => lift (sin_func x t c))).

Definition cos_func (x : value) (to_type : option string)
    (cond : option (value -> bool)) : result value :=
  let? x := _to_decimal x in
  let one := Dec.of_Z 1 in
  let? r := series_loop loop_bound (fun n => (2 * n - 1) * (2 * n)) x one one 1 in
  condint (VDecimal r) to_type cond.

Definition cos : stabilized :=
  stabilize "cos" (unary (fun x t c => lift (cos_func x t c))).

Definition options (to_type : option string) (cond : option (value -> bool))
    : list (string * kwval) :=
  [("to_type", KwToType to_type); ("cond", KwCond cond)].

Definition tan_func (x : value) (to_type : option string)
    (cond : option (value -> bool)) : M value :=
  let* s := sin [x] (options to_type cond) in
  let* c := cos [x] (options to_type cond) in
  let* q := lift (dec_div s c) in
  lift (condint (VDecimal q) to_type cond).

Definition tan : stabilized := stabilize "tan" (unary tan_func).

Definition percentage_func (part total : value) (to_type : option string)
    (cond : option (value -> bool)) : result value :=
  let? p := _to_decimal part in
  let? p100 := Dec.mul ctx p (Dec.of_Z 100) in
  let? q := dec_div (VDecimal p100) total in
  condint (VDecimal q) to_type cond.

Definition percentage : stabilized :=
  stabilize "percentage"
    (binary (fun p t ty c => lift (percentage_func p t ty c))).

(** [Decimal("0")] and [Decimal("1")] *)
Definition ZERO : Dec.t := Dec.mk false 0 0.
Definition ONE : Dec.t := Dec.mk false 1 0.

(** The loop of [fibonacci]: every turn appends [a] and computes [a + b]. *)
Fixpoint fib_loop (k : nat) (a b : Dec.t) : result (list Dec.t) :=
  match k with
  | O => Ok []
  | S k' =>
      let? c := Dec.add ctx a b in
      let? rest := fib_loop k' b c in
      Ok (a :: rest)
  end.

Definition fibonacci_func (n : value) (to_type : option string)
    (cond : option (value -> bool)) : result value :=
  let? n := py_int n in
  let? series := fib_loop (Z.to_nat n) ZERO ONE in
  let? l := rmap (fun x => let? d := _to_decimal (VDecimal x) in
                           condint (VDecimal d) to_type cond) series in
  Ok (VList l).

Definition fibonacci : stabilized :=
  stabilize "fibonacci" (unary (fun n t c => lift (fibonacci_func n t c))).

(** [while n >= 10: n = sum(int(d) for d in str(n))] *)
Fixpoint digital_root_loop (fuel : nat) (n : Z) : result Z :=
  match fuel with
  | O => Raise Diverges
  | S fuel' =>
      if 10 <=? n then
        let? digits := str_int n in
        let? s := digit_sum digits in
        digital_root_loop fuel' s
      else Ok n
  end.

Definition digital_root_func (n : value) : result value :=
  let? n := py_int n in
  let? r := digital_root_loop loop_bound (Z.abs n) in
  Ok (VInt r).

Definition positional1 (f : value -> M value) (args : list value) : M value :=
  match args with
  | [x] => f x
  | _ => raise (TypeError "wrong number of positional arguments")
  end.

Definition digital_root : stabilized :=
  stabilize "digital_root" (positional1 (fun n => lift (digital_root_func n))).

(** [while n != 1: n = n // 2 if n % 2 == 0 else 3 * n + 1; steps += 1] *)
Fixpoint collatz_loop (fuel : nat) (n steps : Z) : result Z :=
  match fuel with
  | O => Raise Diverges
  | S fuel' =>
      if negb (n =? 1) then
        collatz_loop fuel' (if n mod 2 =? 0 then n / 2 else 3 * n + 1)
                     (steps + 1)
      else Ok steps
  end.

Definition collatz_steps_func (n : value) : result value :=
  let? n := py_int n in
  let? r := collatz_loop loop_bound n 0 in
  Ok (VInt r).

Definition collatz_steps : stabilized :=
  stabilize "collatz_steps"
    (positional1 (fun n => lift (collatz_steps_func n))).

(** One turn of the loop of [cbrt]. *)
Definition cbrt_step (x guess : Dec.t) : result Dec.t :=
  let? g2 := Dec.mul ctx guess (Dec.of_Z 2) in
  let? gg := Dec.mul ctx guess guess in
  let? q := dec_div (VDecimal x) (VDecimal gg) in
  let? s := Dec.add ctx g2 q in
  Dec.truediv ctx s (Dec.of_Z 3).

Definition cbrt_func (x : value) (to_type : option string)
    (cond : option (value -> bool)) : result value :=
  let? x := _to_decimal x in
  let? guess := Dec.truediv ctx x (Dec.of_Z 3) in
  let? guess := iterate 30 (cbrt_step x) guess in
  condint (VDecimal guess) to_type cond.

Definition cbrt : stabilized :=
  stabilize "cbrt" (unary (fun x t c => lift (cbrt_func x t c))).

Definition power_func (base exp : value) (to_type : option string)
    (cond : option (value -> bool)) : result value :=
  let? base := _to_decimal base in
  let? exp := py_int exp in
  let? res := iterate (Z.to_nat (Z.abs exp)) (fun r => Dec.mul ctx r base) ONE in
  let? res := if exp <? 0 then dec_div (VDecimal ONE) (VDecimal res)
              else Ok res in
  condint (VDecimal res) to_type cond.

Definition power : stabilized :=
  stabilize "power" (binary (fun b e t c => lift (power_func b e t c))).

Definition ln_msg : string := "ln undefined for non-positive numbers".

(** [while abs(term) > Decimal("1e-40"): ...] in [ln] *)
Fixpoint ln_loop (fuel : nat) (y term res : Dec.t) (n : Z) : result Dec.t :=
  match fuel with
  | O => Raise Diverges
  | S fuel' =>
      let? a := Dec.abs ctx term in
      if Dec.gtb a eps40 then
        let? q := dec_div (VDecimal term) (VInt n) in
        let? res' := Dec.add ctx res q in
        let? yy := Dec.mul ctx y y in
        let? term' := Dec.mul ctx term yy in
        ln_loop fuel' y term' res' (n + 2)
      else Ok res
  end.

Definition ln_func (x : value) (to_type : option string)
    (cond : option (value -> bool)) : result value :=
  let? x := _to_decimal x in
  if Dec.leb x (Dec.of_Z 0) then Raise (ValueError ln_msg)
  else
    let? xm := Dec.sub ctx x ONE in
    let? xp := Dec.add ctx x ONE in
    let? y := dec_div (VDecimal xm) (VDecimal xp) in
    let? r := ln_loop loop_bound y y ZERO 1 in
    let? r2 := Dec.mul ctx r (Dec.of_Z 2) in
    condint (VDecimal r2) to_type cond.

Definition ln : stabilized :=
  stabilize "ln" (unary (fun x t c => lift (ln_func x t c))).

(** [def log(x, base=10, *, to_type=None, cond=None)] *)
Definition log_func (x base : value) (to_type : option string)
    (cond : option (value -> bool)) : M value :=
  let* x := lift (_to_decimal x) in
  let* base := lift (_to_decimal base) in
  let* lx := ln [VDecimal x] (options to_type cond) in
  let* lb := ln [VDecimal base] (options to_type cond) in
  let* q := lift (dec_div lx lb) in
  lift (condint (VDecimal q) to_type cond).

Definition log : stabilized :=
  stabilize "log"
    (fun args =>
       match args with
       | [x] => log_func x (VInt 10) None None
       | [x; base] => log_func x base None None
       | _ => raise (TypeError "wrong number of positional arguments")
       end).

Definition area_triangle_func (base height : value) (to_type : option string)
    (cond : option (value -> bool)) : result value :=
  let? b := _to_decimal base in
  let? h := _to_decimal height in
  let? p := Dec.mul ctx b h in
  let? q := dec_div (VDecimal p) (VInt 2) in
  condint (VDecimal q) to_type cond.

Definition area_triangle : stabilized :=
  stabilize "area_triangle"
    (binary (fun b h t c => lift (area_triangle_func b h t c))).

Definition pythagoras_func (a b : value) (to_type : option string)
    (cond : option (value -> bool)) : M value :=
  let* a := lift (_to_decimal a) in
  let* b := lift (_to_decimal b) in
  let* aa := lift (Dec.mul ctx a a) in
  let* bb := lift (Dec.mul ctx b b) in
  let* s := lift (Dec.add ctx aa bb) in
  let* r := sqrt [VDecimal s] (options to_type cond) in
  lift (condint r to_type cond).

Definition pythagoras : stabilized :=
  stabilize "pythagoras" (binary pythagoras_func).

Definition distance_2d_func (x1 y1 x2 y2 : value) (to_type : option string)
    (cond : option (value -> bool)) : M value :=
  let* x2' := lift (_to_decimal x2) in
  let* x1' := lift (_to_decimal x1) in
  let* dx := lift (Dec.sub ctx x2' x1') in
  let* y2' := lift (_to_decimal y2) in
  let* y1' := lift (_to_decimal y1) in
  let* dy := lift (Dec.sub ctx y2' y1') in
  let* dxx := lift (Dec.mul ctx dx dx) in
  let* dyy := lift (Dec.mul ctx dy dy) in
  let* s := lift (Dec.add ctx dxx dyy) in
  let* r := sqrt [VDecimal s] (options to_type cond) in
  lift (condint r to_type cond).

Definition distance_2d : stabilized :=
  stabilize "distance_2d"
    (fun args =>
       match args with
       | [x1; y1; x2; y2] => distance_2d_func x1 y1 x2 y2 None None
       | _ => raise (TypeError "wrong number of positional arguments")
       end).

Definition simple_interest_func (principal rate time : value)
    (to_type : option string) (cond : option (value -> bool)) : result value :=
  let? p := _to_decimal principal in
  let? r := _to_decimal rate in
  let? t := _to_decimal time in
  let? pr := Dec.mul ctx p r in
  let? prt := Dec.mul ctx pr t in
  let? q := dec_div (VDecimal prt) (VInt 100) in
  condint (VDecimal q) to_type cond.

Definition simple_interest : stabilized :=
  stabilize "simple_interest"
    (fun args =>
       match args with
       | [p; r; t] => lift (simple_interest_func p r t None None)
       | _ => raise (TypeError "wrong number of positional arguments")
       end).

(** ** arrays.py *)

(** The object behind a value, if it is an instance of [BaseArray]. *)
Definition get_array (v : value) (st : state) : option array :=
  match v with
  | VRef r => heap st !! r
  | _ => None
  end.

(** [lst[idx]] for an [int] index: negative indices count from the end. *)
Definition py_index (len : nat) (idx : Z) : result nat :=
  if (0 <=? idx) && (idx <? Z.of_nat len) then Ok (Z.to_nat idx)
  else if (- Z.of_nat len <=? idx) && (idx <? 0)
       then Ok (Z.to_nat (Z.of_nat len + idx))
  else Raise IndexError.

(** A bound of a slice of a list of length [len]: a negative bound counts
    from the end, and every bound is clipped to the list. *)
Definition slice_bound (len : nat) (x : option Z) (dflt : Z) : Z :=
  match x with
  | None => dflt
  | Some i =>
      if i <? 0 then Z.max (i + Z.of_nat len) 0 else Z.min i (Z.of_nat len)
  end.

(** The positions [lo, hi) that [start:stop] stands for; an empty slice
    sits at [lo]. *)
Definition slice_range (len : nat) (start stop : option Z) : nat * nat :=
  let lo := slice_bound len start 0 in
  let hi := Z.max lo (slice_bound len stop (Z.of_nat len)) in
  (Z.to_nat lo, Z.to_nat hi).

(** [lst[idx]] on the list of an array: an item, or for a slice the new
    list of the items in its range. *)
Definition list_getitem (l : list elem) (idx : index) : result elem :=
  match idx with
  | IInt i =>
      let? k := py_index (length l) i in
      match l !! k with
      | Some x => Ok x
      | None => Raise IndexError
      end
  | ISlice start stop =>
      let '(lo, hi) := slice_range (length l) start stop in
      Ok (EList (take (hi - lo) (drop lo l)))
  end.

(** [lst[idx] = x]: at an [int] the item is replaced; at a slice the items
    of [x], which has to be iterable, take the place of the range, and the
    list changes its length by the difference. *)
Definition list_setitem (l : list elem) (idx : index) (x : elem)
    : result (list elem) :=
  match idx with
  | IInt i =>
      let? k := py_index (length l) i in
      Ok (<[k := x]> l)
  | ISlice start stop =>
      match x with
      | EList items =>
          let '(lo, hi) := slice_range (length l) start stop in
          Ok (take lo l ++ items ++ drop hi l)%list
      | EDec _ => Raise (TypeError "can only assign an iterable")
      end
  end.

Definition no_attribute (attr : string) : exn :=
  AttributeError ("object has no attribute '" ++ attr ++ "'").

Definition not_iterable : exn := TypeError "object is not iterable".

(** [for x in row] over an item of [data]: a Decimal cannot be iterated. *)
Definition iter_elem (x : elem) : result (list elem) :=
  match x with
  | EList l => Ok l
  | EDec _ => Raise not_iterable
  end.

(** What [__getitem__] and [to_list] hand out, by the depth of the class:
    [condint(x, ...)], [[condint(x, ...) for x in row]], and
    [[[condint(x, ...) for x in layer] for layer in matrix]]. *)
Definition out_item (self : array) (x : elem) : result value :=
  condint (elem_value x) (to_type self) (cond self).

Definition out_row (self : array) (row : elem) : result value :=
  let? xs := iter_elem row in
  let? l := rmap (out_item self) xs in
  Ok (VList l).

Definition out_matrix (self : array) (matrix : elem) : result value :=
  let? layers := iter_elem matrix in
  let? l := rmap (out_row self) layers in
  Ok (VList l).

Definition out (self : array) : elem -> result value :=
  match cls self with
  | CArray1 => out_item self
  | CArray2 => out_row self
  | CArray3 => out_matrix self
  end.

(** The body of [__getitem__] *)
Definition getitem_func (self : array) (idx : index) : result value :=
  let? x := list_getitem (data self) idx in
  out self x.

(** [self[idx]] *)
Definition getitem (self : value) (idx : index) : M value :=
  fun st =>
    match get_array self st with
    | None => (Raise (TypeError "object is not subscriptable"), st)
    | Some a => (getitem_func a idx, st)
    end.

(** Iteration over an object that has [__getitem__] and no [__iter__]:
    the indices 0, 1, 2, ... are read until one raises IndexError; [n]
    bounds the reads. *)
Fixpoint iter_getitem (get : Z -> result value) (n : nat) (i : Z)
    : result (list value) :=
  match n with
  | O => Ok []
  | S n' =>
      match get i with
      | Ok v =>
          let? rest := iter_getitem get n' (i + 1) in
          Ok (v :: rest)
      | Raise IndexError => Ok []
      | Raise e => Raise e
      end
  end.

(** [for v in x] over a value: a list gives its items, an array object is
    read through [__getitem__] (the index [len(data)] raises IndexError, so
    one read more than the length is enough), nothing else can be
    iterated. *)
Definition iter_value (x : value) (st : state) : result (list value) :=
  match x with
  | VList l => Ok l
  | VRef r =>
      match heap st !! r with
      | Some a =>
          iter_getitem (fun i => getitem_func a (IInt i))
                       (S (length (data a))) 0
      | None => Raise not_iterable
      end
  | _ => Raise not_iterable
  end.

(** What the constructors and [__setitem__] store, by the depth of the
    class: [_to_decimal(v)], [[_to_decimal(v) for v in row]], and
    [[[_to_decimal(v) for v in layer] for layer in matrix]]. *)
Definition in_item (v : value) : result elem :=
  let? d := _to_decimal v in
  Ok (EDec d).

Definition in_row (st : state) (row : value) : result elem :=
  let? vs := iter_value row st in
  let? l := rmap in_item vs in
  Ok (EList l).

Definition in_matrix (st : state) (matrix : value) : result elem :=
  let? layers := iter_value matrix st in
  let? l := rmap (in_row st) layers in
  Ok (EList l).

Definition convert (c : array_class) (st : state) : value -> result elem :=
  match c with
  | CArray1 => in_item
  | CArray2 => in_row st
  | CArray3 => in_matrix st
  end.

(** [Array1(data, to_type=..., cond=...)] and the like, for [data] given by
    the list of its items: the new object is stored at the next free
    address. *)
Definition new_array (c : array_class) (dat : list value)
    (to_type : option string) (cond : option (value -> bool)) : M value :=
  fun st =>
    match rmap (convert c st) dat with
    | Ok l =>
        (Ok (VRef (length (heap st))),
         State (heap st ++ [Array c l to_type cond]) (caches st))
    | Raise e => (Raise e, st)
    end.

Definition Array1 := new_array CArray1.
Definition Array2 := new_array CArray2.
Definition Array3 := new_array CArray3.

(** [self[idx] = value]: the right-hand side is converted first, then the
    list is assigned to. *)
Definition setitem (self : value) (idx : index) (v : value) : M value :=
  fun st =>
    match self, get_array self st with
    | VRef r, Some a =>
        match (let? x := convert (cls a) st v in
               list_setitem (data a) idx x) with
        | Ok l =>
            (Ok VNone,
             State (<[r := Array (cls a) l (to_type a) (cond a)]> (heap st))
                   (caches st))
        | Raise e => (Raise e, st)
        end
    | _, _ =>
        (Raise (TypeError "object does not support item assignment"), st)
    end.

Definition to_list (self : array) : result value :=
  let? l := rmap (out self) (data self) in
  Ok (VList l).

Definition shape_msg : string := "Array lengths must match".

Definition _elementwise (self : array) (other : value)
    (op : elem -> elem -> result elem) : M (list elem) :=
  fun st =>
    match get_array other st with
    | Some o =>
        if negb (length (data self) =? length (data o))%nat
        then (Raise (ValueError shape_msg), st)
        else (rmap (fun ab => op (fst ab) (snd ab)) (zip (data self) (data o)),
              st)
    | None =>
        (let? o := _to_decimal other in
         rmap (fun a => op a (EDec o)) (data self), st)
    end.

Definition unsupported (op : string) : exn :=
  TypeError ("unsupported operand type(s) for " ++ op).

(** [a + b], [a - b] and [a * b] on items of [data]: Decimal arithmetic on
    two Decimals; two lists are concatenated by [+]; everything else is
    refused. *)
Definition py_add (a b : elem) : result elem :=
  match a, b with
  | EDec x, EDec y => let? r := Dec.add ctx x y in Ok (EDec r)
  | EList l1, EList l2 => Ok (EList (l1 ++ l2)%list)
  | _, _ => Raise (unsupported "+")
  end.

Definition py_sub (a b : elem) : result elem :=
  match a, b with
  | EDec x, EDec y => let? r := Dec.sub ctx x y in Ok (EDec r)
  | _, _ => Raise (unsupported "-")
  end.

Definition py_mul (a b : elem) : result elem :=
  match a, b with
  | EDec x, EDec y => let? r := Dec.mul ctx x y in Ok (EDec r)
  | _, _ => Raise (unsupported "*")
  end.

(** [dec_div(a, b)] on items of [data] *)
Definition py_div (a b : elem) : result elem :=
  let? r := dec_div (elem_value a) (elem_value b) in
  Ok (EDec r).

(** The common shape of [add], [sub], [mul] and [div], before decoration. *)
Definition arith_func (op : elem -> elem -> result elem)
    (args : list value) : M value :=
  match args with
  | [self; other] =>
      fun st =>
        match get_array self st with
        | None => (Raise (no_attribute "_elementwise"), st)
        | Some s =>
            (let* l := _elementwise s other op in
             let* r := lift (condint_list (elem_value <$> l)
                                          (to_type s) (cond s)) in
             ret (VList r)) st
        end
  | _ => raise (TypeError "wrong number of positional arguments")
  end.

Definition add : stabilized := stabilize "add" (arith_func py_add).
Definition sub : stabilized := stabilize "sub" (arith_func py_sub).
Definition mul : stabilized := stabilize "mul" (arith_func py_mul).
Definition div : stabilized := stabilize "div" (arith_func py_div).

(** [recv.attr( *args )] for a method [attr] of [BaseArray]: the lookup
    fails on a receiver that is not an array, a plain list for one. *)
Definition call_method (attr : string) (f : stabilized) (recv : value)
    (args : list value) : M value :=
  fun st =>
    match get_array recv st with
    | Some _ => f (recv :: args) [] st
    | None => (Raise (no_attribute attr), st)
    end.

(** [recv.to_list()] *)
Definition call_to_list (recv : value) : M value :=
  fun st =>
    match get_array recv st with
    | Some a => (to_list a, st)
    | None => (Raise (no_attribute "to_list"), st)
    end.

(** [d + x] for a Decimal [d] and an item of [data] *)
Definition dec_plus (d : Dec.t) (x : elem) : result Dec.t :=
  match x with
  | EDec y => Dec.add ctx d y
  | EList _ => Raise (unsupported "+")
  end.

(** [0 + x], the first step of the builtin [sum] *)
Definition zero_plus (x : elem) : result Dec.t :=
  match x with
  | EDec d => Dec.add ctx d (Dec.of_Z 0)
  | EList _ => Raise (unsupported "+")
  end.

(** [sum(f(x) for x in l)]: the builtin starts from the [int] 0, so the
    empty sum is that [int]; the items are produced one at a time, each
    just before it is added. *)
Fixpoint sum_from {A} (f : A -> result elem) (acc : Dec.t) (l : list A)
    : result Dec.t :=
  match l with
  | [] => Ok acc
  | x :: l' =>
      let? d := f x in
      let? acc' := dec_plus acc d in
      sum_from f acc' l'
  end.

Definition py_sum {A} (f : A -> result elem) (l : list A) : result value :=
  match l with
  | [] => Ok (VInt 0)
  | x :: l' =>
      let? d := f x in
      let? acc := zero_plus d in
      let? r := sum_from f acc l' in
      Ok (VDecimal r)
  end.

Definition with_self (f : array -> M value) (args : list value) : M value :=
  match args with
  | [self] =>
      fun st =>
        match get_array self st with
        | None => (Raise (no_attribute "data"), st)
        | Some s => f s st
        end
  | _ => raise (TypeError "wrong number of positional arguments")
  end.

Definition sum_func (self : array) : result value :=
  let? s := py_sum Ok (data self) in
  condint s (to_type self) (cond self).

Definition sum : stabilized :=
  stabilize "sum" (with_self (fun s => lift (sum_func s))).

Definition mean_msg : string := "Cannot compute mean of empty array".

Definition mean_func (self : array) : result value :=
  if (length (data self) =? 0)%nat then Raise (ValueError mean_msg)
  else
    let? s := py_sum Ok (data self) in
    let? q := dec_div s (VInt (Z.of_nat (length (data self)))) in
    condint (VDecimal q) (to_type self) (cond self).

Definition mean : stabilized :=
  stabilize "mean" (with_self (fun s => lift (mean_func s))).

(** The loop of [cumsum]. *)
Fixpoint cumsum_loop (to_type : option string) (cond : option (value -> bool))
    (total : Dec.t) (l : list elem) : result (list value) :=
  match l with
  | [] => Ok []
  | x :: l' =>
      let? total' := dec_plus total x in
      let? v := condint (VDecimal total') to_type cond in
      let? rest := cumsum_loop to_type cond total' l' in
      Ok (v :: rest)
  end.

Definition cumsum_func (self : array) : result value :=
  let? total := _to_decimal (VInt 0) in
  let? l := cumsum_loop (to_type self) (cond self) total (data self) in
  Ok (VList l).

Definition cumsum : stabilized :=
  stabilize "cumsum" (with_self (fun s => lift (cumsum_func s))).

Definition dot_msg : string := "Dot product requires arrays of same length".

Definition dot_func (args : list value) : M value :=
  match args with
  | [self; other] =>
      fun st =>
        match get_array other st with
        | None => (Raise (ValueError dot_msg), st)
        | Some o =>
            match get_array self st with
            | None => (Raise (no_attribute "data"), st)
            | Some s =>
                if negb (length (data o) =? length (data s))%nat
                then (Raise (ValueError dot_msg), st)
                else
                  (let? total := py_sum (fun ab => py_mul (fst ab) (snd ab))
                                        (zip (data s) (data o)) in
                   condint total (to_type s) (cond s), st)
            end
        end
  | _ => raise (TypeError "wrong number of positional arguments")
  end.

Definition dot : stabilized := stabilize "dot" dot_func.


(** ** Sessions

    What a client does with the three array classes through their methods:
    build an object, assign to an index or to a slice, read an index or a
    slice or the whole, call a method. An assignment to a slice of an
    [Array2] or [Array3] can change the length of [data]; on an [Array1] it
    is refused, so an [Array1] keeps its length. What a client does to the
    attribute [data] directly, without a method, is not part of a
    session. *)
Inductive method : Type :=
  | MAdd | MSub | MMul | MDiv | MSum | MMean | MCumsum | MDot.

Definition method_name (m : method) : string :=
  match m with
  | MAdd => "add" | MSub => "sub" | MMul => "mul" | MDiv => "div"
  | MSum => "sum" | MMean => "mean" | MCumsum => "cumsum" | MDot => "dot"
  end.

Definition method_fun (m : method) : stabilized :=
  match m with
  | MAdd => add | MSub => sub | MMul => mul | MDiv => div
  | MSum => sum | MMean => mean | MCumsum => cumsum | MDot => dot
  end.

Definition is_arith (m : method) : bool :=
  match m with
  | MAdd | MSub | MMul | MDiv => true
  | _ => false
  end.

Inductive action : Type :=
  | ANew (k : array_class) (dat : list value) (t : option string)
         (c : option (value -> bool))
  | ASet (self : value) (idx : index) (v : value)
  | AGet (self : value) (idx : index)
  | AToList (self : value)
  | ACall (m : method) (recv : value) (args : list value).

Definition perform (a : action) : M value :=
  match a with
  | ANew k dat t c => new_array k dat t c
  | ASet self idx v => setitem self idx v
  | AGet self idx => getitem self idx
  | AToList self => call_to_list self
  | ACall m recv args => call_method (method_name m) (method_fun m) recv args
  end.

(** The state after a sequence of actions; an action that raises leaves
    what it had done before. *)
Fixpoint run (acts : list action) (st : state) : state :=
  match acts with
  | [] => st
  | a :: rest => run rest (snd (perform a st))
  end.

Definition reachable (st : state) : Prop := exists acts, st = run acts initial.

End Package.

(** * Running the package *)

(** [float()] on the numbers of the model: the nearest binary64, ties to
    even. [round_binary64 n d] is the float nearest to n/d as (mantissa,
    exponent), or nothing when n/d is beyond the largest float. *)
Definition round_binary64 (n d : positive) : option (N * Z) :=
  let e0 := Z.log2 (Zpos n) - Z.log2 (Zpos d) in
  let below :=
    if 0 <=? e0 then Zpos n <? Zpos d * 2 ^ e0
    else Zpos n * 2 ^ (- e0) <? Zpos d in
  let lg := if below then e0 - 1 else e0 in
  let e := Z.max (lg - 52) (-1074) in
  let '(num, den) :=
    if 0 <=? e then (Zpos n, Zpos d * 2 ^ e) else (Zpos n * 2 ^ (- e), Zpos d) in
  let q := num / den in
  let r := num mod den in
  let m := if (den <? 2 * r) || ((2 * r =? den) && Z.odd q) then q + 1 else q in
  if 2 ^ 1024 <=? m * 2 ^ e then None else Some (Z.to_N m, e).

Definition float_of_Q (neg : bool) (n : N) (d : positive) : result value :=
  match n with
  | N0 => Ok (VFloat (PyFloat neg 0 0))
  | Npos p =>
      match round_binary64 p d with
      | Some (m, e) => Ok (VFloat (PyFloat neg m (if (m =? 0)%N then 0 else e)))
      | None => Raise OverflowError
      end
  end.

(** For an [int] or a [Fraction] beyond the largest float Python raises
    OverflowError, as here; for such a [Decimal] it returns an infinity,
    which the model does not hold. The properties of the package below
    are proved for any [float_of]. *)
Definition py_float (x : value) : result value :=
  match x with
  | VBool b => Ok (VFloat (PyFloat false (if b then 1 else 0) 0))
  | VInt n => float_of_Q (n <? 0) (Z.abs_N n) 1
  | VFloat f => Ok (VFloat f)
  | VDecimal d =>
      if 0 <=? Dec.exp d
      then float_of_Q (Dec.sign d) (Dec.coeff d * Dec.pow10 (Dec.exp d)) 1
      else float_of_Q (Dec.sign d) (Dec.coeff d)
                      (Z.to_pos (10 ^ (- Dec.exp d)))
  | VFraction n d => float_of_Q (n <? 0) (Z.abs_N n) d
  | VNone | VList _ | VRef _ =>
      Raise (TypeError "float() argument must be a string or a real number")
  end.

(** Python's [==] between two numbers: equality of the exact values. *)
Definition num_eqb (x y : value) : bool :=
  match num_to_Q x, num_to_Q y with
  | Some p, Some q => Qeq_bool p q
  | _, _ => false
  end.

(** The float 2.0 *)
Definition float_two : pyfloat := PyFloat false 4503599627370496 (-51).



(** What [int("-")] raises. *)
Definition minus_literal_msg : string :=
  "invalid literal for int() with base 10: '-'".

(** [int], [bool], [float], [Decimal] and [Fraction]. *)
Definition is_number (x : value) : bool :=
  match x with
  | VBool _ | VInt _ | VFloat _ | VDecimal _ | VFraction _ _ => true
  | _ => false
  end.

(** The failures of the arithmetic inside [sqrt], [cbrt] and the like:
    a Decimal overflow or the zero check of [dec_div]. *)
Definition arith_failure (e : exn) : Prop :=
  e = DecimalOverflow \/ e = ValueError dec_div_msg.

(** The contexts in which the integers below 10^prec are representable
    with exponent 0; the default context is one for every precision up to
    a million digits. *)
Definition ctx_ok (c : Dec.context) : Prop :=
  1 <= Dec.prec c /\ Dec.Etiny c <= 0 /\ 0 <= Dec.Etop c.


(** The Fibonacci numbers, as the pair (F_n, F_(n+1)). *)
Fixpoint fib_pair (n : nat) : Z * Z :=
  match n with
  | O => (0, 1)
  | S k => let '(a, b) := fib_pair k in (b, a + b)
  end.

Definition fibZ (n : nat) : Z := (fib_pair n).1.

(** The sum of a list of integers, and its running totals from [acc]. *)
Definition sumZ (zs : list Z) : Z := foldr Z.add 0 zs.

Fixpoint running_totals (acc : Z) (zs : list Z) : list Z :=
  match zs with
  | [] => []
  | z :: zs' => (acc + z) :: running_totals (acc + z) zs'
  end.

(** The context after [import maths_cleaned]. *)
Definition ctx50 : Dec.context := Dec.default 50.

(** The state of a session that has built [Array1(xs)] and [Array1(ys)]
    from two lists of integers, in this order. *)
Definition two_arrays (xs ys : list Z) : state :=
  run ctx50 py_float
      [ANew CArray1 (VInt <$> xs) None None;
       ANew CArray1 (VInt <$> ys) None None] initial.


(** An [Array1] that holds the given Decimals, or integers, and has no
    target type. *)
Definition array1 (ds : list Dec.t) : array :=
  Array CArray1 (EDec <$> ds) None None.

Definition array1_of_ints (zs : list Z) : array := array1 (Dec.of_Z <$> zs).

(** * Properties *)

Section Properties.

Variable ctx : Dec.context.
Variable float_of : value -> result value.
Variable loop_bound : nat.

(** ** What the Decimal operations can raise *)

Lemma fix_cases d :
  (exists r, Dec.fix_ ctx d = Ok r) \/ Dec.fix_ ctx d = Raise DecimalOverflow.
Proof. unfold Dec.fix_. repeat case_match; eauto. Qed.

Lemma add_cases a b :
  (exists r, Dec.add ctx a b = Ok r) \/ Dec.add ctx a b = Raise DecimalOverflow.
Proof. unfold Dec.add. repeat case_match; apply fix_cases. Qed.

Lemma sub_cases a b :
  (exists r, Dec.sub ctx a b = Ok r) \/ Dec.sub ctx a b = Raise DecimalOverflow.
Proof. apply add_cases. Qed.

Lemma mul_cases a b :
  (exists r, Dec.mul ctx a b = Ok r) \/ Dec.mul ctx a b = Raise DecimalOverflow.
Proof. unfold Dec.mul. repeat case_match; apply fix_cases. Qed.

Lemma truediv_cases a b :
  Dec.is_zero b = false ->
  (exists r, Dec.truediv ctx a b = Ok r)
  \/ Dec.truediv ctx a b = Raise DecimalOverflow.
Proof.
  intros Hb. unfold Dec.truediv. rewrite Hb.
  repeat case_match; apply fix_cases.
Qed.

Lemma eqb_zero d : Dec.eqb d (Dec.of_Z 0) = Dec.is_zero d.
Proof.
  unfold Dec.eqb, Dec.cmp. simpl.
  destruct (Dec.is_zero d); [reflexivity|].
  destruct (Dec.sign d); reflexivity.
Qed.

Lemma ltb_zero d : Dec.ltb d (Dec.of_Z 0) = negb (Dec.is_zero d) && Dec.sign d.
Proof.
  unfold Dec.ltb, Dec.cmp. simpl.
  destruct (Dec.is_zero d); [reflexivity|].
  destruct (Dec.sign d); reflexivity.
Qed.

(** ** The length of a coefficient *)

Lemma ndigits_fuel_bounds fuel n k :
  1 <= k -> Z.of_N n < 10 ^ k -> 1 <= Dec.ndigits_fuel fuel n <= k.
Proof.
  revert n k. induction fuel as [|fuel IH]; intros n k Hk Hn; simpl; [lia|].
  destruct (n <? 10)%N eqn:E; [lia|].
  apply N.ltb_ge in E.
  assert (Hk2 : 2 <= k).
  { destruct (Z.eq_dec k 1) as [->|]; [|lia]. change (10 ^ 1) with 10 in Hn. lia. }
  assert (Z.of_N (n / 10) < 10 ^ (k - 1)).
  { rewrite N2Z.inj_div. change (Z.of_N 10) with 10.
    apply Z.div_lt_upper_bound; [lia|].
    replace (10 * 10 ^ (k - 1)) with (10 ^ k); [lia|].
    replace k with (Z.succ (k - 1)) at 1 by lia.
    rewrite Z.pow_succ_r; lia. }
  specialize (IH (n / 10)%N (k - 1)). lia.
Qed.

Lemma ndigits_bounds n k :
  1 <= k -> Z.of_N n < 10 ^ k -> 1 <= Dec.ndigits n <= k.
Proof. apply ndigits_fuel_bounds. Qed.

Lemma ndigits_fuel_pos fuel n : 1 <= Dec.ndigits_fuel fuel n.
Proof.
  revert n. induction fuel as [|fuel IH]; intros n; simpl; [lia|].
  destruct (n <? 10)%N; [lia|]. specialize (IH (n / 10)%N). lia.
Qed.

Lemma ndigits_pos n : 1 <= Dec.ndigits n.
Proof. apply ndigits_fuel_pos. Qed.





(** ** condint *)

Lemma condint_default x :
  condint float_of x None None
  = Ok (match x with
        | VFloat f => if float_is_integer f then VInt (float_to_Z f) else x
        | _ => x
        end).
Proof.
  unfold condint. simpl.
  destruct x; simpl; try reflexivity.
  - destruct (float_is_integer f); reflexivity.
  - rewrite andb_false_r. reflexivity.
  - rewrite andb_false_r. reflexivity.
Qed.

Lemma condint_decimal d : condint float_of (VDecimal d) None None = Ok (VDecimal d).
Proof. apply condint_default. Qed.

(** C6: with no target type and the default predicate, a float without
    fractional part comes back as the [int] of the same value, and every
    other value, a [Decimal] that equals its integral value included, comes
    back unchanged; so [condint(2.0)] is the int 2 and
    [condint(Decimal("2.0"))] is [Decimal("2.0")]. *)
Theorem condint_only_floats_coerced :
  (forall x,
     condint float_of x None None
     = Ok (match x with
           | VFloat f => if float_is_integer f then VInt (float_to_Z f) else x
           | _ => x
           end))
  /\ condint float_of (VFloat float_two) None None = Ok (VInt 2)
  /\ is_exact_int (VDecimal (Dec.mk false 20 (-1))) = true
  /\ condint float_of (VDecimal (Dec.mk false 20 (-1))) None None
     = Ok (VDecimal (Dec.mk false 20 (-1))).
Proof.
  split; [exact condint_default|].
  split; [rewrite condint_default; reflexivity|].
  split; [reflexivity|apply condint_decimal].
Qed.

(** ** The stabilizer *)

Lemma cache_of_put name key v st :
  cache_of name (cache_put name key v st) = <[key := v]> (cache_of name st).
Proof. unfold cache_of, cache_put. simpl. by rewrite lookup_insert_eq. Qed.


Lemma heap_cache_put name key v st : heap (cache_put name key v st) = heap st.
Proof. reflexivity. Qed.


Lemma stabilize_hit name func args key r st :
  hash_args args = Some key ->
  cache_of name st !! key = Some r ->
  stabilize name func args [] st = (Ok r, st).
Proof. intros Hk Hc. unfold stabilize, wrapper. by rewrite Hk, Hc. Qed.

Lemma stabilize_miss_ok name func args key r st st' :
  hash_args args = Some key ->
  cache_of name st !! key = None ->
  func args st = (Ok r, st') ->
  stabilize name func args [] st = (Ok r, cache_put name key r st').
Proof. intros Hk Hc Hf. unfold stabilize, wrapper. by rewrite Hk, Hc, Hf. Qed.

Lemma stabilize_miss_raise name func args key e st st' :
  hash_args args = Some key ->
  cache_of name st !! key = None ->
  func args st = (Raise e, st') ->
  stabilize name func args [] st
  = (if is_ZeroDivisionError e then Raise (StabilizeError stabilize_msg)
     else Raise e, st').
Proof.
  intros Hk Hc Hf. unfold stabilize, wrapper. rewrite Hk, Hc, Hf.
  by destruct (is_ZeroDivisionError e).
Qed.

Lemma stabilize_unhashable name func args st :
  hash_args args = None ->
  stabilize name func args [] st
  = (Raise (TypeError "unhashable type: 'list'"), st).
Proof. intros Hk. unfold stabilize, wrapper. by rewrite Hk. Qed.

Lemma dec_div_zero a b da db :
  _to_decimal ctx a = Ok da ->
  _to_decimal ctx b = Ok db ->
  Dec.is_zero db = true ->
  dec_div ctx a b = Raise (ValueError dec_div_msg).
Proof.
  intros Ha Hb Hz. unfold dec_div. rewrite Ha, Hb. simpl.
  by rewrite eqb_zero, Hz.
Qed.

(** C1, as the code has it: a zero divisor makes [dec_div] raise
    ValueError with its own message, wrapped or not; [wrapper] translates
    the failures of class ZeroDivisionError, and only those, into
    StabilizeError with the fixed message, so the failure of [dec_div]
    leaves a wrapped call unchanged, like every other failure. *)
Theorem stabilize_translates_ZeroDivisionError_only :
  (forall a b da db,
     _to_decimal ctx a = Ok da ->
     _to_decimal ctx b = Ok db ->
     Dec.is_zero db = true ->
     dec_div ctx a b = Raise (ValueError dec_div_msg))
  /\ (forall name func args key e st st',
        hash_args args = Some key ->
        cache_of name st !! key = None ->
        func args st = (Raise e, st') ->
        stabilize name func args [] st
        = (match e with
           | ZeroDivisionError | DecimalDivisionByZero =>
               Raise (StabilizeError stabilize_msg)
           | _ => Raise e
           end, st')).
Proof.
  split; [exact dec_div_zero|].
  intros name func args key e st st' Hk Hc Hf.
  rewrite (stabilize_miss_raise _ _ _ _ _ _ _ Hk Hc Hf).
  by destruct e.
Qed.

Lemma stabilize_second_call name func args r st st' :
  stabilize name func args [] st = (Ok r, st') ->
  forall func' args',
    hash_args args' = hash_args args ->
    stabilize name func' args' [] st' = (Ok r, st').
Proof.
  intros Hcall func' args' Hkey.
  unfold stabilize, wrapper in Hcall.
  destruct (hash_args args) as [key|] eqn:Hk; [|discriminate].
  destruct (cache_of name st !! key) as [r0|] eqn:Hc.
  - injection Hcall as -> ->. by apply stabilize_hit with key.
  - destruct (func args st) as [[r1|e] st1] eqn:Hf.
    + injection Hcall as -> <-.
      apply stabilize_hit with key; [done|].
      by rewrite cache_of_put, lookup_insert_eq.
    + by destruct (is_ZeroDivisionError e).
Qed.


(** ** tan *)

Lemma tan_func_raises x t c st :
  tan_func ctx float_of loop_bound x t c st
  = (Raise (TypeError (keyword_msg "to_type")), st).
Proof. reflexivity. Qed.

(** C2: the body of [tan] passes [to_type] and [cond] by keyword to [sin],
    which [stabilize] has replaced by a wrapper without keyword parameters:
    every call of [tan] ends in TypeError and caches nothing. *)
Theorem tan_always_raises_TypeError x st :
  cache_of "tan" st = ∅ ->
  tan ctx float_of loop_bound [x] [] st
  = (Raise (TypeError (match hash_value x with
                       | Some _ => keyword_msg "to_type"
                       | None => "unhashable type: 'list'"
                       end)), st).
Proof.
  intros Hc. unfold tan.
  destruct (hash_value x) as [k|] eqn:Hx.
  - rewrite (stabilize_miss_raise "tan" _ [x] [k]
               (TypeError (keyword_msg "to_type")) st st).
    + reflexivity.
    + unfold hash_args. simpl. by rewrite Hx.
    + by rewrite Hc.
    + apply tan_func_raises.
  - apply stabilize_unhashable. unfold hash_args. simpl. by rewrite Hx.
Qed.

(** ** Decimal digits *)












(** ** Keys of numbers *)

Lemma hash_int n : hash_args [VInt n] = Some [KNum n 1].
Proof.
  unfold hash_args. simpl. unfold num_key.
  rewrite Qred_identity; [reflexivity|].
  simpl. apply Z.gcd_1_r.
Qed.

(** ** is_harshad, digital_root, collatz_steps *)

Lemma is_harshad_func_neg p :
  is_harshad_func (VInt (Zneg p))
  = Raise (ValueError (if int_max_str_digits <? Dec.ndigits (Npos p)
                       then str_digits_msg else minus_literal_msg)).
Proof.
  unfold is_harshad_func, str_int. simpl py_int. cbn [rbind]. simpl Z.abs_N.
  by destruct (int_max_str_digits <? Dec.ndigits (Npos p)).
Qed.

Lemma is_harshad_func_zero : is_harshad_func (VInt 0) = Raise ZeroDivisionError.
Proof. reflexivity. Qed.


(** C10 at its failing inputs: every call of [is_harshad] on a negative
    integer ends in ValueError instead of a boolean. [str(n)] starts with
    the sign and [int("-")] raises the error; for a number of more than
    4300 digits it is [str(n)] that raises it. *)
Theorem is_harshad_negative_raises p st :
  cache_of "is_harshad" st !! [KNum (Zneg p) 1] = None ->
  is_harshad [VInt (Zneg p)] [] st
  = (Raise (ValueError (if int_max_str_digits <? Dec.ndigits (Npos p)
                        then str_digits_msg else minus_literal_msg)), st)
  /\ (Zpos p < 10 ^ int_max_str_digits ->
      is_harshad [VInt (Zneg p)] [] st
      = (Raise (ValueError minus_literal_msg), st)).
Proof.
  intros Hc.
  assert (H : is_harshad [VInt (Zneg p)] [] st
              = (Raise (ValueError
                          (if int_max_str_digits <? Dec.ndigits (Npos p)
                           then str_digits_msg else minus_literal_msg)), st)).
  { unfold is_harshad.
    rewrite (stabilize_miss_raise _ _ _ _
               (ValueError (if int_max_str_digits <? Dec.ndigits (Npos p)
                            then str_digits_msg else minus_literal_msg))
               st st (hash_int _) Hc); [done|].
    simpl. unfold lift. by rewrite is_harshad_func_neg. }
  split; [exact H|]. intros Hp. rewrite H.
  assert (H1 : 1 <= int_max_str_digits) by done.
  pose proof (ndigits_bounds (Npos p) int_max_str_digits H1 Hp).
  destruct (int_max_str_digits <? Dec.ndigits (Npos p)) eqn:E; [lia|done].
Qed.

(** X1: for an argument whose integer part is 0 (0, 0.0, 0.4, False, a
    Decimal below 1) the digit sum is 0, the modulo raises
    ZeroDivisionError, and [wrapper] turns it into StabilizeError with the
    fixed message; nothing is cached. *)
Theorem is_harshad_zero_stabilize_error x key st :
  py_int x = Ok 0 ->
  hash_args [x] = Some key ->
  cache_of "is_harshad" st !! key = None ->
  is_harshad [x] [] st = (Raise (StabilizeError stabilize_msg), st).
Proof.
  intros Hx Hk Hc. unfold is_harshad.
  rewrite (stabilize_miss_raise _ _ _ _ ZeroDivisionError st st Hk Hc);
    [done|].
  simpl. unfold lift, is_harshad_func. by rewrite Hx.
Qed.




Lemma collatz_loop_nonpositive fuel n steps :
  n <= 0 -> collatz_loop fuel n steps = Raise Diverges.
Proof.
  revert n steps. induction fuel as [|fuel IH]; intros n steps Hn;
    [reflexivity|].
  cbn [collatz_loop].
  destruct (n =? 1) eqn:E; [lia|]. simpl negb. cbv iota.
  apply IH.
  destruct (n mod 2 =? 0) eqn:Em.
  - apply Z.div_le_upper_bound; lia.
  - assert (n <> 0) by (intros ->; discriminate). lia.
Qed.

(** X4: for an integer below 1 the loop of [collatz_steps] never reaches 1:
    whatever the bound on its turns, the call does not return. *)
Theorem collatz_steps_nonpositive_never_returns n :
  n <= 0 -> collatz_steps_func loop_bound (VInt n) = Raise Diverges.
Proof.
  intros Hn. unfold collatz_steps_func. simpl py_int. cbn [rbind].
  by rewrite collatz_loop_nonpositive.
Qed.

Lemma collatz_loop_pow2 k fuel steps :
  (k < fuel)%nat ->
  collatz_loop fuel (2 ^ Z.of_nat k) steps = Ok (steps + Z.of_nat k).
Proof.
  revert fuel steps. induction k as [|k IH]; intros fuel steps Hk.
  - destruct fuel; [lia|]. simpl. f_equal. lia.
  - destruct fuel as [|fuel]; [lia|].
    cbn [collatz_loop].
    assert (E2 : 2 ^ Z.of_nat (S k) = 2 * 2 ^ Z.of_nat k).
    { rewrite Nat2Z.inj_succ, Z.pow_succ_r; lia. }
    assert (Hpos : 0 < 2 ^ Z.of_nat k) by (apply Z.pow_pos_nonneg; lia).
    rewrite E2.
    destruct (2 * 2 ^ Z.of_nat k =? 1) eqn:E1; [lia|]. simpl negb. cbv iota.
    replace (2 * 2 ^ Z.of_nat k) with (2 ^ Z.of_nat k * 2) by lia.
    rewrite Z_mod_mult, Z_div_mult by lia. simpl.
    rewrite IH by lia. f_equal. lia.
Qed.

(** X5: from a power of two 2^k the loop of [collatz_steps] takes k
    halvings, and the call returns k. *)
Theorem collatz_steps_power_of_two k :
  (k < loop_bound)%nat ->
  collatz_steps_func loop_bound (VInt (2 ^ Z.of_nat k)) = Ok (VInt (Z.of_nat k)).
Proof.
  intros Hk. unfold collatz_steps_func. simpl py_int. cbn [rbind].
  by rewrite collatz_loop_pow2.
Qed.

(** ** Conversions and the safe division *)



Lemma hash_number x :
  is_number x = true -> exists k, hash_args [x] = Some [k].
Proof. destruct x; try discriminate; intros _; eexists; reflexivity. Qed.

Lemma dec_div_decimals a b :
  dec_div ctx (VDecimal a) (VDecimal b)
  = if Dec.is_zero b then Raise (ValueError dec_div_msg)
    else Dec.truediv ctx a b.
Proof. unfold dec_div. simpl. by rewrite eqb_zero. Qed.

Lemma dec_div_cases a b :
  (exists r, dec_div ctx (VDecimal a) (VDecimal b) = Ok r)
  \/ (exists e, dec_div ctx (VDecimal a) (VDecimal b) = Raise e
                /\ arith_failure e).
Proof.
  rewrite dec_div_decimals. unfold arith_failure.
  destruct (Dec.is_zero b) eqn:E; [eauto|].
  destruct (truediv_cases a b E) as [[r H]|H]; rewrite H; eauto.
Qed.


(** ** triangular *)




(** ** sqrt and cbrt *)






Lemma arith_failure_not_ZeroDivisionError e :
  arith_failure e -> is_ZeroDivisionError e = false.
Proof. by intros [-> | ->]. Qed.


(** ** Integers are computed exactly *)

Lemma fix_small s n :
  ctx_ok ctx -> Z.of_N n < 10 ^ Dec.prec ctx ->
  Dec.fix_ ctx (Dec.mk s n 0) = Ok (Dec.mk s n 0).
Proof.
  intros (Hp & Ht & Htop) Hn. unfold Dec.fix_, Dec.is_zero. simpl.
  destruct (n =? 0)%N eqn:E.
  - apply N.eqb_eq in E. subst n. f_equal. f_equal.
    unfold Dec.Etop, Dec.Etiny in *. lia.
  - pose proof (ndigits_bounds n _ Hp Hn) as Hd.
    destruct (Dec.Etop ctx <? Dec.ndigits n + 0 - Dec.prec ctx) eqn:E1; [lia|].
    destruct (Dec.ndigits n + 0 - Dec.prec ctx <? Dec.Etiny ctx) eqn:E2.
    + destruct (0 <? Dec.Etiny ctx) eqn:E3; [lia|reflexivity].
    + destruct (0 <? Dec.ndigits n + 0 - Dec.prec ctx) eqn:E3; [lia|reflexivity].
Qed.

Lemma normalize_integers p a b :
  Dec.normalize p (a, 0) (b, 0) = ((a, 0), (b, 0)).
Proof.
  unfold Dec.normalize. cbn [fst snd]. change (0 <? 0) with false. cbv iota.
  pose proof (ndigits_pos b) as Hb.
  destruct (Dec.ndigits b + 0 - 1 <? 0 + (-1) `min` (Dec.ndigits a - p - 2))
    eqn:E; [lia|].
  cbn [fst snd]. rewrite E. cbn [fst snd].
  change (Dec.pow10 (0 - 0)) with 1%N. by rewrite N.mul_1_r.
Qed.

Lemma rescale_integer s n :
  1 <= Dec.prec ctx -> n <> 0%N ->
  Dec.rescale (Dec.mk s n 0) ((0 `min` 0) `max` (0 - Dec.prec ctx - 1))
  = Dec.mk s n 0.
Proof.
  intros Hp Hn. replace ((0 `min` 0) `max` (0 - Dec.prec ctx - 1)) with 0 by lia.
  unfold Dec.rescale, Dec.is_zero. simpl.
  destruct (n =? 0)%N eqn:E; [apply N.eqb_eq in E; done|].
  change (Dec.pow10 (0 - 0)) with 1%N. by rewrite N.mul_1_r.
Qed.

Lemma add_of_Z x y :
  ctx_ok ctx -> Z.abs (x + y) < 10 ^ Dec.prec ctx ->
  Dec.add ctx (Dec.of_Z x) (Dec.of_Z y) = Ok (Dec.of_Z (x + y)).
Proof.
  intros Hc Hxy.
  assert (Hp := proj1 Hc).
  destruct x as [|p|p], y as [|q|q]; unfold Dec.add, Dec.is_zero;
    simpl Dec.coeff; simpl Dec.exp; simpl N.eqb; cbn [andb];
    try rewrite normalize_integers;
    try (unfold Dec.of_Z at 1; simpl Z.abs_N; rewrite rescale_integer by done).
  all: try (simpl; apply fix_small; [done|simpl in *; lia]).
  all: simpl Z.ltb; cbn [negb Bool.eqb].
  all: destruct (N.pos p =? N.pos q)%N eqn:E;
    [apply N.eqb_eq in E; injection E as ->;
     first [rewrite Z.add_opp_diag_r | rewrite Z.add_opp_diag_l];
     apply fix_small; [done|simpl; lia]|].
  all: apply N.eqb_neq in E.
  all: destruct (N.pos p <? N.pos q)%N eqn:E2;
    [apply N.ltb_lt in E2|apply N.ltb_ge in E2].
  all: rewrite fix_small; [|done|lia].
  all: unfold Dec.of_Z; do 2 f_equal;
    first [lia | symmetry; apply Z.ltb_lt; lia | symmetry; apply Z.ltb_ge; lia].
Qed.

(** ** Arrays: construction and to_list *)

Lemma rmap_ok {A B} (f : A -> result B) (g : A -> B) l :
  (forall x, f x = Ok (g x)) -> rmap f l = Ok (g <$> l).
Proof.
  intros Hf. induction l as [|x l IH]; csimpl; [done|].
  by rewrite Hf, IH.
Qed.


Lemma rmap_fmap {A B C} (f : B -> result C) (g : A -> B) l :
  rmap f (g <$> l) = rmap (fun x => f (g x)) l.
Proof. induction l as [|x l IH]; csimpl; [done|]. by rewrite IH. Qed.


Lemma in_item_ok dat ds :
  rmap (_to_decimal ctx) dat = Ok ds ->
  rmap (in_item ctx) dat = Ok (EDec <$> ds).
Proof.
  revert ds. induction dat as [|v dat IH]; intros ds; csimpl.
  - by intros [= <-].
  - unfold in_item at 1.
    destruct (_to_decimal ctx v) as [d|]; [|done]. cbn [rbind].
    destruct (rmap (_to_decimal ctx) dat) as [ds'|]; [|done]. cbn [rbind].
    intros [= <-]. by rewrite (IH ds' eq_refl).
Qed.

Lemma elem_value_decs (ds : list Dec.t) :
  elem_value <$> (EDec <$> ds) = VDecimal <$> ds.
Proof. by rewrite <- list_fmap_compose. Qed.

Lemma to_list_default ds :
  to_list float_of (array1 ds) = Ok (VList (VDecimal <$> ds)).
Proof.
  unfold to_list, out, array1. cbn [cls data]. rewrite rmap_fmap.
  rewrite (rmap_ok _ VDecimal ds); [done|].
  intros d. apply condint_decimal.
Qed.

Lemma get_array_new st a :
  get_array (VRef (length (heap st))) (State (heap st ++ [a]) (caches st))
  = Some a.
Proof. simpl. by rewrite list_lookup_middle. Qed.

Lemma Array1_ok dat ds t c st :
  rmap (_to_decimal ctx) dat = Ok ds ->
  Array1 ctx float_of dat t c st
  = (Ok (VRef (length (heap st))),
     State (heap st ++ [Array CArray1 (EDec <$> ds) t c]) (caches st)).
Proof.
  intros H. unfold Array1, new_array. cbn [convert].
  by rewrite (in_item_ok _ _ H).
Qed.

Lemma num_eqb_of_Z z : num_eqb (VDecimal (Dec.of_Z z)) (VInt z) = true.
Proof.
  unfold num_eqb. simpl. unfold Dec.to_Q. simpl.
  apply Qeq_bool_iff. unfold Qeq. simpl.
  destruct z; simpl; lia.
Qed.

(** C5, as the code has it: an array stores Decimals and [condint] leaves
    a Decimal as it is, so with no target type [to_list()] returns the
    stored Decimals, whatever the elements were built from: for [1, 2, 3]
    the Decimals 1, 2, 3, which equal the ints as numbers without being
    ints, and for the floats [1.0, 2.0] the Decimals 1 and 2. *)
Theorem to_list_returns_decimals :
  (forall dat ds st,
     rmap (_to_decimal ctx) dat = Ok ds ->
     (let* a := Array1 ctx float_of dat None None in call_to_list float_of a) st
     = (Ok (VList (VDecimal <$> ds)),
        State (heap st ++ [array1 ds]) (caches st)))
  /\ rmap (_to_decimal ctx) [VInt 1; VInt 2; VInt 3]
     = Ok [Dec.mk false 1 0; Dec.mk false 2 0; Dec.mk false 3 0]
  /\ Forall2 (fun d z => num_eqb (VDecimal d) (VInt z) = true)
             [Dec.mk false 1 0; Dec.mk false 2 0; Dec.mk false 3 0] [1; 2; 3]
  /\ rmap (_to_decimal ctx) [VFloat (PyFloat false 4503599627370496 (-52));
                             VFloat float_two]
     = Ok [Dec.mk false 1 0; Dec.mk false 2 0].
Proof.
  split; [|repeat split; repeat constructor].
  intros dat ds st H. unfold bind.
  rewrite (Array1_ok _ _ _ _ _ H). unfold call_to_list.
  fold (array1 ds). rewrite get_array_new. by rewrite to_list_default.
Qed.

(** ** Arrays: elementwise arithmetic *)

Lemma condint_list_decimals ds :
  condint_list float_of (VDecimal <$> ds) None None = Ok (VDecimal <$> ds).
Proof.
  unfold condint_list. induction ds as [|d ds IH]; csimpl; [done|].
  by rewrite condint_decimal, IH.
Qed.

Lemma hash_refs a b : hash_args [VRef a; VRef b] = Some [KRef a; KRef b].
Proof. reflexivity. Qed.

Lemma elementwise_arrays s o b op st :
  get_array b st = Some o ->
  _elementwise ctx s b op st
  = (if negb (length (data s) =? length (data o))%nat
     then Raise (ValueError shape_msg)
     else rmap (fun ab => op ab.1 ab.2) (zip (data s) (data o)), st).
Proof.
  intros Hb. unfold _elementwise. rewrite Hb.
  by destruct (negb _).
Qed.

Lemma arith_func_arrays op a b s o st :
  get_array a st = Some s ->
  get_array b st = Some o ->
  arith_func ctx float_of op [a; b] st
  = (if negb (length (data s) =? length (data o))%nat
     then Raise (ValueError shape_msg)
     else
       let? l := rmap (fun ab => op ab.1 ab.2) (zip (data s) (data o)) in
       let? r := condint_list float_of (elem_value <$> l) (to_type s) (cond s) in
       Ok (VList r), st).
Proof.
  intros Ha Hb. unfold arith_func. rewrite Ha. unfold bind.
  rewrite (elementwise_arrays _ _ _ _ _ Hb).
  destruct (negb _); [done|].
  destruct (rmap _ _); [|done]. simpl. unfold lift.
  by destruct (condint_list _ _ _ _).
Qed.





(** ** Arrays: the length check *)

Lemma hash_value_ref x r : hash_value x = Some (KRef r) -> x = VRef r.
Proof.
  destruct x; simpl; try discriminate; try (by intros [= ->]).
  all: unfold num_key; destruct (Qred _); discriminate.
Qed.

Lemma hash_args_refs args a b :
  hash_args args = Some [KRef a; KRef b] -> args = [VRef a; VRef b].
Proof.
  unfold hash_args. intros H.
  apply mapM_Some in H.
  apply Forall2_cons_inv_r in H as (x & l1 & Hx & H & ->).
  apply Forall2_cons_inv_r in H as (y & l2 & Hy & H & ->).
  apply Forall2_nil_inv_r in H as ->.
  by rewrite (hash_value_ref _ _ Hx), (hash_value_ref _ _ Hy).
Qed.

Lemma arith_func_state op args st :
  (arith_func ctx float_of op args st).2 = st.
Proof.
  unfold arith_func.
  destruct args as [|self [|other [|? ?]]]; try reflexivity.
  destruct (get_array self st); [|reflexivity].
  unfold bind, _elementwise.
  destruct (get_array other st).
  - destruct (negb _); [reflexivity|].
    destruct (rmap _ _); [|reflexivity]. unfold lift.
    by destruct (condint_list _ _ _ _).
  - destruct (rbind _ _); [|reflexivity]. unfold lift.
    by destruct (condint_list _ _ _ _).
Qed.

Lemma with_self_state (f : array -> result value) args st :
  (with_self (fun s => lift (f s)) args st).2 = st.
Proof.
  unfold with_self.
  destruct args as [|self [|? ?]]; try reflexivity.
  by destruct (get_array self st).
Qed.

Lemma dot_func_state args st : (dot_func ctx float_of args st).2 = st.
Proof.
  unfold dot_func.
  destruct args as [|self [|other [|? ?]]]; try reflexivity.
  destruct (get_array other st); [|reflexivity].
  destruct (get_array self st); [|reflexivity].
  by destruct (negb _).
Qed.

Lemma arith_func_ok op a b r st st' :
  arith_func ctx float_of op [VRef a; VRef b] st = (Ok r, st') ->
  exists A B,
    heap st !! a = Some A /\ heap st !! b = Some B
    /\ length (data A) = length (data B).
Proof.
  unfold arith_func. simpl get_array.
  destruct (heap st !! a) as [A|] eqn:Ha; [|discriminate].
  unfold bind, _elementwise. simpl get_array.
  destruct (heap st !! b) as [B|] eqn:Hb; [|discriminate].
  destruct (length (data A) =? length (data B))%nat eqn:E; [|discriminate].
  intros _. exists A, B. by apply Nat.eqb_eq in E.
Qed.

(** What a call of a wrapped function does to the state, when the
    function itself leaves the state alone. *)
Lemma wrapper_state name func args st :
  (forall s, (func args s).2 = s) ->
  (wrapper name func args st).2 = st
  \/ exists key r,
       hash_args args = Some key
       /\ func args st = (Ok r, st)
       /\ (wrapper name func args st).2 = cache_put name key r st.
Proof.
  intros Hpure. unfold wrapper.
  destruct (hash_args args) as [key|]; [|by left].
  destruct (cache_of name st !! key); [by left|].
  specialize (Hpure st).
  destruct (func args st) as [[r|e] st'] eqn:Hf; simpl in Hpure; subst st'.
  - right. by exists key, r.
  - left. by destruct (is_ZeroDivisionError e).
Qed.


Lemma method_call_state m args st :
  (method_fun ctx float_of m args [] st).2 = st
  \/ exists key r,
       hash_args args = Some key
       /\ (method_fun ctx float_of m args [] st).2
          = cache_put (method_name m) key r st
       /\ (is_arith m = true ->
           forall a b, key = [KRef a; KRef b] ->
             exists A B,
               heap st !! a = Some A /\ heap st !! b = Some B
               /\ length (data A) = length (data B)).
Proof.
  assert (Harith : forall name op,
    (wrapper name (arith_func ctx float_of op) args st).2 = st
    \/ exists key r,
         hash_args args = Some key
         /\ (wrapper name (arith_func ctx float_of op) args st).2
            = cache_put name key r st
         /\ forall a b, key = [KRef a; KRef b] ->
              exists A B,
                heap st !! a = Some A /\ heap st !! b = Some B
                /\ length (data A) = length (data B)).
  { intros name op.
    destruct (wrapper_state name (arith_func ctx float_of op) args st)
      as [H|(key & r & Hk & Hf & H)];
      [intros s; apply arith_func_state|by left|].
    right. exists key, r. repeat split; [done..|].
    intros a b ->. apply hash_args_refs in Hk as ->.
    by apply arith_func_ok in Hf. }
  assert (Hother : forall name func,
    (forall s, (func args s).2 = s) ->
    (wrapper name func args st).2 = st
    \/ exists key r,
         hash_args args = Some key
         /\ (wrapper name func args st).2 = cache_put name key r st).
  { intros name func Hp.
    destruct (wrapper_state name func args st Hp)
      as [H|(key & r & Hk & _ & H)]; [by left|].
    right. by exists key, r. }
  destruct m; simpl method_fun; simpl method_name;
    unfold add, sub, mul, div, sum, mean, cumsum, dot, stabilize.
  - destruct (Harith "add" (py_add ctx)) as [H|(key & r & Hk & H & Hl)];
      [by left|right; exists key, r; repeat split; [done..|]; by intros _].
  - destruct (Harith "sub" (py_sub ctx)) as [H|(key & r & Hk & H & Hl)];
      [by left|right; exists key, r; repeat split; [done..|]; by intros _].
  - destruct (Harith "mul" (py_mul ctx)) as [H|(key & r & Hk & H & Hl)];
      [by left|right; exists key, r; repeat split; [done..|]; by intros _].
  - destruct (Harith "div" (py_div ctx)) as [H|(key & r & Hk & H & Hl)];
      [by left|right; exists key, r; repeat split; [done..|]; by intros _].
  - destruct (Hother "sum" (with_self (fun s => lift (sum_func ctx float_of s))))
      as [H|(key & r & Hk & H)]; [intros s; apply with_self_state|by left|].
    right. exists key, r. repeat split; [done..|]. discriminate.
  - destruct (Hother "mean" (with_self (fun s => lift (mean_func ctx float_of s))))
      as [H|(key & r & Hk & H)]; [intros s; apply with_self_state|by left|].
    right. exists key, r. repeat split; [done..|]. discriminate.
  - destruct (Hother "cumsum"
                (with_self (fun s => lift (cumsum_func ctx float_of s))))
      as [H|(key & r & Hk & H)]; [intros s; apply with_self_state|by left|].
    right. exists key, r. repeat split; [done..|]. discriminate.
  - destruct (Hother "dot" (dot_func ctx float_of))
      as [H|(key & r & Hk & H)]; [intros s; apply dot_func_state|by left|].
    right. exists key, r. repeat split; [done..|]. discriminate.
Qed.








(** ** fact *)

Lemma fact_func_nonneg n :
  0 <= n ->
  fact_func float_of (VInt n) None None
  = Ok (VInt (foldl (fun r i => r * i) 1 (seqZ 1 n))).
Proof.
  intros Hn. unfold fact_func. simpl py_int. cbn [rbind].
  destruct (n <? 0) eqn:E; [lia|]. by rewrite condint_default.
Qed.

(** X6: [fact] on an integer: 1 at 0, (n + 1) times the value at n at
    n + 1, an int in both cases, and ValueError below 0. *)
Theorem fact_recurrence :
  fact_func float_of (VInt 0) None None = Ok (VInt 1)
  /\ (forall n, 0 <= n ->
        exists f,
          fact_func float_of (VInt n) None None = Ok (VInt f)
          /\ fact_func float_of (VInt (n + 1)) None None
             = Ok (VInt ((n + 1) * f)))
  /\ (forall n, n < 0 ->
        fact_func float_of (VInt n) None None
        = Raise (ValueError "Factorial not defined for negatives")).
Proof.
  split; [by rewrite fact_func_nonneg|]. split.
  - intros n Hn. eexists. split; [by apply fact_func_nonneg|].
    rewrite fact_func_nonneg by lia.
    rewrite seqZ_app by lia. rewrite foldl_app.
    rewrite (seqZ_cons (1 + n) 1) by lia.
    rewrite (seqZ_nil (Z.succ (1 + n))) by lia. simpl.
    do 2 f_equal. lia.
  - intros n Hn. unfold fact_func. simpl py_int. cbn [rbind].
    destruct (n <? 0) eqn:E; [done|lia].
Qed.

(** ** Functions that call a decorated function with keywords *)

Lemma stabilize_never_returns name func args st :
  cache_of name st = ∅ ->
  (exists e, func args st = (Raise e, st)) ->
  exists e, stabilize name func args [] st = (Raise e, st).
Proof.
  intros Hc [e Hf]. unfold stabilize, wrapper.
  destruct (hash_args args) as [key|]; [|eauto].
  rewrite Hc, lookup_empty, Hf.
  destruct (is_ZeroDivisionError e); eauto.
Qed.

Lemma log_func_raises x base t c st :
  exists e, log_func ctx float_of loop_bound x base t c st = (Raise e, st).
Proof.
  unfold log_func, bind, lift.
  destruct (_to_decimal ctx x); [|eauto].
  destruct (_to_decimal ctx base); eauto.
Qed.

Lemma pythagoras_func_raises a b t c st :
  exists e, pythagoras_func ctx float_of a b t c st = (Raise e, st).
Proof.
  unfold pythagoras_func, bind, lift.
  destruct (_to_decimal ctx a) as [da|]; [|eauto].
  destruct (_to_decimal ctx b) as [db|]; [|eauto].
  destruct (Dec.mul ctx da da) as [aa|]; [|eauto].
  destruct (Dec.mul ctx db db) as [bb|]; [|eauto].
  destruct (Dec.add ctx aa bb); eauto.
Qed.

Lemma distance_2d_func_raises x1 y1 x2 y2 t c st :
  exists e, distance_2d_func ctx float_of x1 y1 x2 y2 t c st = (Raise e, st).
Proof.
  unfold distance_2d_func, bind, lift.
  destruct (_to_decimal ctx x2) as [a2|]; [|eauto].
  destruct (_to_decimal ctx x1) as [a1|]; [|eauto].
  destruct (Dec.sub ctx a2 a1) as [dx|]; [|eauto].
  destruct (_to_decimal ctx y2) as [b2|]; [|eauto].
  destruct (_to_decimal ctx y1) as [b1|]; [|eauto].
  destruct (Dec.sub ctx b2 b1) as [dy|]; [|eauto].
  destruct (Dec.mul ctx dx dx) as [dxx|]; [|eauto].
  destruct (Dec.mul ctx dy dy) as [dyy|]; [|eauto].
  destruct (Dec.add ctx dxx dyy); eauto.
Qed.

(** X7: like [tan], the functions [log], [pythagoras] and [distance_2d]
    hand [to_type] and [cond] by keyword to a decorated function ([ln],
    [sqrt]); no call of them returns a value, whatever the arguments, and
    each leaves the state as it was. For integer arguments the failure is
    the TypeError of the refused keyword. *)
Theorem keyword_callers_never_return args st :
  cache_of "log" st = ∅ ->
  cache_of "pythagoras" st = ∅ ->
  cache_of "distance_2d" st = ∅ ->
  (exists e, log ctx float_of loop_bound args [] st = (Raise e, st))
  /\ (exists e, pythagoras ctx float_of args [] st = (Raise e, st))
  /\ (exists e, distance_2d ctx float_of args [] st = (Raise e, st))
  /\ (forall x b,
        log ctx float_of loop_bound [VInt x; VInt b] [] st
        = (Raise (TypeError (keyword_msg "to_type")), st))
  /\ (forall a b,
        pythagoras ctx float_of [VInt a; VInt b] [] st
        = (Raise (TypeError (keyword_msg "to_type")), st)
        \/ pythagoras ctx float_of [VInt a; VInt b] [] st
           = (Raise DecimalOverflow, st)).
Proof.
  intros Hl Hp Hd. repeat split.
  - apply stabilize_never_returns; [done|].
    destruct args as [|x [|b [|? ?]]]; try (by eexists);
      apply log_func_raises.
  - apply stabilize_never_returns; [done|]. unfold binary.
    destruct args as [|x [|b [|? ?]]]; try (by eexists).
    apply pythagoras_func_raises.
  - apply stabilize_never_returns; [done|].
    destruct args as [|x1 [|y1 [|x2 [|y2 [|? ?]]]]]; try (by eexists).
    apply distance_2d_func_raises.
  - intros x b. unfold log, stabilize, wrapper.
    destruct (hash_args _) as [key|] eqn:Hk; [|discriminate].
    by rewrite Hl, lookup_empty.
  - intros a b. unfold pythagoras, stabilize, wrapper.
    destruct (hash_args _) as [key|] eqn:Hk; [|discriminate].
    rewrite Hp, lookup_empty. unfold binary, pythagoras_func, bind, lift.
    simpl _to_decimal.
    destruct (mul_cases (Dec.of_Z a) (Dec.of_Z a)) as [[aa Ha]|Ha];
      rewrite Ha; [|by right].
    destruct (mul_cases (Dec.of_Z b) (Dec.of_Z b)) as [[bb Hb]|Hb];
      rewrite Hb; [|by right].
    destruct (add_cases aa bb) as [[s Hs]|Hs]; rewrite Hs; [by left|by right].
Qed.

(** ** power and cbrt *)

Lemma fix_zero s e :
  exists e', Dec.fix_ ctx (Dec.mk s 0 e) = Ok (Dec.mk s 0 e').
Proof. unfold Dec.fix_. simpl. eauto. Qed.

Lemma mul_zero_r a b :
  Dec.is_zero b = true ->
  exists z, Dec.mul ctx a b = Ok z /\ Dec.is_zero z = true.
Proof.
  intros Hb. unfold Dec.mul. rewrite Hb, orb_true_r.
  destruct (fix_zero (xorb (Dec.sign a) (Dec.sign b)) (Dec.exp a + Dec.exp b))
    as [e' ->]. eauto.
Qed.

Lemma mul_zero_l a b :
  Dec.is_zero a = true ->
  exists z, Dec.mul ctx a b = Ok z /\ Dec.is_zero z = true.
Proof.
  intros Ha. unfold Dec.mul. rewrite Ha. simpl.
  destruct (fix_zero (xorb (Dec.sign a) (Dec.sign b)) (Dec.exp a + Dec.exp b))
    as [e' ->]. eauto.
Qed.

Lemma truediv_zero_l a b :
  Dec.is_zero a = true -> Dec.is_zero b = false ->
  exists z, Dec.truediv ctx a b = Ok z /\ Dec.is_zero z = true.
Proof.
  intros Ha Hb. unfold Dec.truediv. rewrite Ha, Hb.
  destruct (fix_zero (xorb (Dec.sign a) (Dec.sign b)) (Dec.exp a - Dec.exp b))
    as [e' ->]. eauto.
Qed.

Lemma iterate_mul_zero k d r :
  Dec.is_zero d = true -> (0 < k)%nat ->
  exists z, iterate k (fun r => Dec.mul ctx r d) r = Ok z
            /\ Dec.is_zero z = true.
Proof.
  intros Hd Hk. revert r. induction k as [|k IH]; intros r; [lia|].
  cbn [iterate].
  destruct (mul_zero_r r d Hd) as (z & -> & Hz). cbn [rbind].
  destruct k as [|k]; [by exists z|]. apply IH. lia.
Qed.

(** X8: [power] with a base that is zero and a negative exponent: the repeated product
    is zero, its reciprocal goes through [dec_div], and the call ends in
    the ValueError of [dec_div]. *)
Theorem power_zero_base_negative_exponent x e d k :
  _to_decimal ctx x = Ok d ->
  Dec.is_zero d = true ->
  py_int e = Ok k ->
  k < 0 ->
  power_func ctx float_of x e None None = Raise (ValueError dec_div_msg).
Proof.
  intros Hx Hd He Hk. unfold power_func. rewrite Hx, He. cbn [rbind].
  destruct (iterate_mul_zero (Z.to_nat (Z.abs k)) d ONE Hd) as (z & -> & Hz);
    [lia|]. cbn [rbind].
  destruct (k <? 0) eqn:E; [|lia].
  by rewrite dec_div_decimals, Hz.
Qed.

Lemma mul_of_Z x y :
  ctx_ok ctx -> 0 <= x -> 0 <= y -> x * y < 10 ^ Dec.prec ctx ->
  Dec.mul ctx (Dec.of_Z x) (Dec.of_Z y) = Ok (Dec.of_Z (x * y)).
Proof.
  intros Hc Hx Hy Hxy. unfold Dec.mul, Dec.is_zero, Dec.of_Z. simpl.
  destruct (x <? 0) eqn:Ex; [lia|]. destruct (y <? 0) eqn:Ey; [lia|].
  destruct (x * y <? 0) eqn:Exy; [lia|]. simpl.
  destruct ((Z.abs_N x =? 0)%N || (Z.abs_N y =? 0)%N) eqn:E.
  - assert (x * y = 0).
    { apply orb_true_iff in E as [E|E]; apply N.eqb_eq in E; lia. }
    rewrite fix_small; [|done|simpl; lia]. do 2 f_equal. lia.
  - rewrite fix_small; [|done|lia]. do 2 f_equal. lia.
Qed.

Lemma iterate_mul_ints b k a :
  ctx_ok ctx -> 0 <= a -> 0 <= b ->
  a * b ^ Z.of_nat k < 10 ^ Dec.prec ctx ->
  iterate k (fun r => Dec.mul ctx r (Dec.of_Z b)) (Dec.of_Z a)
  = Ok (Dec.of_Z (a * b ^ Z.of_nat k)).
Proof.
  intros Hc Ha Hb. revert a Ha. induction k as [|k IH]; intros a Ha Hlt.
  - simpl. do 2 f_equal. lia.
  - cbn [iterate].
    assert (E : a * b ^ Z.of_nat (S k) = a * b * b ^ Z.of_nat k).
    { rewrite Nat2Z.inj_succ, Z.pow_succ_r; lia. }
    assert (Hab : a * b < 10 ^ Dec.prec ctx).
    { destruct (Z.eq_dec b 0) as [->|Hb0].
      - rewrite Z.mul_0_r. apply Z.pow_pos_nonneg; [lia|].
        destruct Hc; lia.
      - assert (0 < b ^ Z.of_nat k) by (apply Z.pow_pos_nonneg; lia).
        nia. }
    rewrite mul_of_Z by (done || lia). cbn [rbind].
    rewrite IH by (nia || lia). by rewrite E.
Qed.

(** X9: on integers that are not negative [power] is exact as long as
    the result fits the precision: the Decimal of base^exp, and so the
    Decimal 1 for the exponent 0, also at base 0. *)
Theorem power_exact_on_naturals b e :
  ctx_ok ctx -> 0 <= b -> 0 <= e -> b ^ e < 10 ^ Dec.prec ctx ->
  power_func ctx float_of (VInt b) (VInt e) None None
  = Ok (VDecimal (Dec.of_Z (b ^ e))).
Proof.
  intros Hc Hb He Hlt. unfold power_func. simpl _to_decimal. simpl py_int.
  cbn [rbind].
  change ONE with (Dec.of_Z 1).
  rewrite iterate_mul_ints; try done; try lia.
  - cbn [rbind]. destruct (e <? 0) eqn:E; [lia|]. cbn [rbind].
    rewrite condint_decimal. rewrite Z2Nat.id by lia.
    rewrite Z.abs_eq by lia. do 3 f_equal. lia.
  - rewrite Z2Nat.id by lia. rewrite Z.abs_eq by lia. lia.
Qed.

(** X10: at a zero argument (0, 0.0, a Decimal zero of any sign and
    exponent) the first guess of [sqrt] and of [cbrt] is zero, the first
    iteration divides by it, and the call ends in the ValueError of
    [dec_div]. *)
Theorem roots_of_zero_fail x d t c :
  _to_decimal ctx x = Ok d ->
  Dec.is_zero d = true ->
  sqrt_func ctx float_of x t c = Raise (ValueError dec_div_msg)
  /\ cbrt_func ctx float_of x t c = Raise (ValueError dec_div_msg).
Proof.
  intros Hx Hd. split.
  - unfold sqrt_func. rewrite Hx. cbn [rbind].
    rewrite ltb_zero, Hd. simpl.
    destruct (truediv_zero_l d (Dec.of_Z 2) Hd eq_refl) as (g & -> & Hg).
    cbn [rbind iterate]. unfold sqrt_step at 1.
    by rewrite dec_div_decimals, Hg.
  - unfold cbrt_func. rewrite Hx. cbn [rbind].
    destruct (truediv_zero_l d (Dec.of_Z 3) Hd eq_refl) as (g & -> & Hg).
    cbn [rbind iterate]. unfold cbrt_step at 1.
    destruct (mul_zero_l g (Dec.of_Z 2) Hg) as (g2 & -> & _). cbn [rbind].
    destruct (mul_zero_l g g Hg) as (gg & -> & Hgg). cbn [rbind].
    by rewrite dec_div_decimals, Hgg.
Qed.

(** ** fibonacci *)

Lemma fib_pair_S n : fib_pair (S n) = ((fib_pair n).2, (fib_pair n).1 + (fib_pair n).2).
Proof. simpl. by destruct (fib_pair n). Qed.

Lemma fib_pair_snd n : (fib_pair n).2 = fibZ (S n).
Proof. unfold fibZ. by rewrite fib_pair_S. Qed.

Lemma fibZ_SS n : fibZ (S (S n)) = fibZ n + fibZ (S n).
Proof.
  unfold fibZ. by rewrite !fib_pair_S.
Qed.

Lemma fibZ_mono_S n : 0 <= fibZ n <= fibZ (S n).
Proof.
  induction n as [|n IH]; [by compute|].
  rewrite fibZ_SS. lia.
Qed.

Lemma fibZ_mono n m : (n <= m)%nat -> fibZ n <= fibZ m.
Proof.
  induction 1 as [|m _ IH]; [lia|].
  pose proof (fibZ_mono_S m). lia.
Qed.

Lemma fib_loop_spec k i :
  ctx_ok ctx ->
  fibZ (i + k + 1) < 10 ^ Dec.prec ctx ->
  fib_loop ctx k (Dec.of_Z (fibZ i)) (Dec.of_Z (fibZ (S i)))
  = Ok ((fun j => Dec.of_Z (fibZ j)) <$> seq i k).
Proof.
  intros Hc. revert i. induction k as [|k IH]; intros i Hlt; [done|].
  cbn [fib_loop].
  pose proof (fibZ_mono_S (S (S i))) as Hpos.
  pose proof (fibZ_mono (S (S i)) (i + S k + 1) ltac:(lia)) as Hle.
  rewrite add_of_Z; [|done|rewrite <- fibZ_SS; lia]. cbn [rbind].
  rewrite <- fibZ_SS.
  rewrite IH by (by replace (S i + k + 1)%nat with (i + S k + 1)%nat by lia).
  reflexivity.
Qed.

(** X11: [fibonacci(n)] is the list of the first n Fibonacci numbers, as
    Decimals and exact, as long as F(n+1), the last sum the loop forms,
    fits the precision; for n below 1 it is the empty list. *)
Theorem fibonacci_exact n :
  ctx_ok ctx ->
  fibZ (S (Z.to_nat n)) < 10 ^ Dec.prec ctx ->
  fibonacci_func ctx float_of (VInt n) None None
  = Ok (VList ((fun j => VDecimal (Dec.of_Z (fibZ j))) <$> seq 0 (Z.to_nat n))).
Proof.
  intros Hc Hlt. unfold fibonacci_func. simpl py_int. cbn [rbind].
  change ZERO with (Dec.of_Z (fibZ 0)). change ONE with (Dec.of_Z (fibZ 1)).
  rewrite fib_loop_spec;
    [|done|by replace (0 + Z.to_nat n + 1)%nat with (S (Z.to_nat n)) by lia].
  cbn [rbind].
  rewrite (rmap_ok _ VDecimal); [|intros x; simpl; apply condint_decimal].
  cbn [rbind]. by rewrite <- list_fmap_compose.
Qed.

(** ** Arrays: reductions *)

Lemma stabilize_with_self name (f : array -> result value) r A st :
  heap st !! r = Some A ->
  cache_of name st !! [KRef r] = None ->
  stabilize name (with_self (fun s => lift (f s))) [VRef r] [] st
  = match f A with
    | Ok v => (Ok v, cache_put name [KRef r] v st)
    | Raise e =>
        (if is_ZeroDivisionError e then Raise (StabilizeError stabilize_msg)
         else Raise e, st)
    end.
Proof.
  intros Hr Hc.
  assert (Hf : with_self (fun s => lift (f s)) [VRef r] st = (f A, st)).
  { unfold with_self. simpl get_array. by rewrite Hr. }
  destruct (f A) as [v|e] eqn:E.
  - by apply stabilize_miss_ok.
  - by apply (stabilize_miss_raise _ _ _ [KRef r]).
Qed.

(** X12: [mean()] of an array without elements raises
    ValueError("Cannot compute mean of empty array"); nothing is cached. *)
Theorem mean_of_empty_array r A st :
  heap st !! r = Some A ->
  data A = [] ->
  cache_of "mean" st !! [KRef r] = None ->
  call_method "mean" (mean ctx float_of) (VRef r) [] st
  = (Raise (ValueError mean_msg), st).
Proof.
  intros Hr Hd Hc. unfold call_method. simpl get_array. rewrite Hr.
  unfold mean. rewrite (stabilize_with_self _ _ r A st Hr Hc).
  unfold mean_func. by rewrite Hd.
Qed.


Lemma sum_from_ints acc zs :
  ctx_ok ctx -> 0 <= acc -> Forall (fun z => 0 <= z) zs ->
  acc + sumZ zs < 10 ^ Dec.prec ctx ->
  sum_from ctx Ok (Dec.of_Z acc) (EDec <$> (Dec.of_Z <$> zs))
  = Ok (Dec.of_Z (acc + sumZ zs)).
Proof.
  intros Hc Hacc Hzs. revert acc Hacc.
  induction Hzs as [|z zs Hz Hzs IH]; intros acc Hacc Hlt; csimpl.
  - do 2 f_equal. unfold sumZ. simpl. lia.
  - assert (0 <= sumZ zs).
    { clear -Hzs. induction Hzs; unfold sumZ in *; simpl in *; lia. }
    unfold sumZ in *. simpl in Hlt.
    rewrite add_of_Z by (done || lia). cbn [rbind].
    rewrite IH by lia. do 2 f_equal. simpl. lia.
Qed.

Lemma sumZ_nonneg zs : Forall (fun z => 0 <= z) zs -> 0 <= sumZ zs.
Proof. induction 1; unfold sumZ in *; simpl in *; lia. Qed.

(** X14: [sum()] without target type: for an array without elements it
    is the int 0 the builtin [sum] starts from, not a Decimal; for an array
    of integers that are not negative and whose total fits the precision it
    is the Decimal of the exact total. *)
Theorem sum_of_naturals zs :
  ctx_ok ctx ->
  Forall (fun z => 0 <= z) zs ->
  sumZ zs < 10 ^ Dec.prec ctx ->
  sum_func ctx float_of (array1_of_ints zs)
  = Ok (match zs with
        | [] => VInt 0
        | _ => VDecimal (Dec.of_Z (sumZ zs))
        end).
Proof.
  intros Hc Hzs Hlt. unfold sum_func. simpl data.
  destruct zs as [|z zs]; [reflexivity|]. csimpl.
  apply Forall_cons in Hzs as [Hz Hzs].
  pose proof (sumZ_nonneg zs Hzs).
  assert (E : sumZ (z :: zs) = z + sumZ zs) by reflexivity.
  rewrite add_of_Z by (done || lia). cbn [rbind].
  rewrite Z.add_0_r.
  rewrite sum_from_ints by (done || lia). cbn [rbind].
  by rewrite condint_decimal.
Qed.

Lemma cumsum_loop_ints acc zs :
  ctx_ok ctx -> 0 <= acc -> Forall (fun z => 0 <= z) zs ->
  acc + sumZ zs < 10 ^ Dec.prec ctx ->
  cumsum_loop ctx float_of None None (Dec.of_Z acc)
              (EDec <$> (Dec.of_Z <$> zs))
  = Ok ((fun t => VDecimal (Dec.of_Z t)) <$> running_totals acc zs).
Proof.
  intros Hc Hacc Hzs. revert acc Hacc.
  induction Hzs as [|z zs Hz Hzs IH]; intros acc Hacc Hlt; csimpl; [done|].
  pose proof (sumZ_nonneg zs Hzs).
  assert (E : sumZ (z :: zs) = z + sumZ zs) by reflexivity.
  rewrite add_of_Z by (done || lia). cbn [rbind].
  rewrite condint_decimal. cbn [rbind].
  by rewrite IH by lia.
Qed.

(** X15: [cumsum()] of an array of integers that are not negative and
    whose total fits the precision: the list of the exact running totals,
    one per element, as Decimals. *)
Theorem cumsum_of_naturals zs :
  ctx_ok ctx ->
  Forall (fun z => 0 <= z) zs ->
  sumZ zs < 10 ^ Dec.prec ctx ->
  cumsum_func ctx float_of (array1_of_ints zs)
  = Ok (VList ((fun t => VDecimal (Dec.of_Z t)) <$> running_totals 0 zs))
  /\ length (running_totals 0 zs) = length zs.
Proof.
  intros Hc Hzs Hlt. split.
  - unfold cumsum_func. simpl _to_decimal. cbn [rbind]. simpl data.
    by rewrite cumsum_loop_ints by (done || lia).
  - generalize 0. induction zs as [|z zs IH]; intros acc; simpl; [done|].
    f_equal. apply IH.
    + by apply Forall_cons in Hzs as [_ ?].
    + apply Forall_cons in Hzs as [? Hzs]. unfold sumZ in *. simpl in Hlt.
      pose proof (sumZ_nonneg zs Hzs). unfold sumZ in *. lia.
Qed.

(** ** Arrays: division, broadcasting *)

Lemma rmap_raises {A B} (P : exn -> Prop) (f : A -> result B) l i x e0 :
  (forall y, (exists r, f y = Ok r) \/ (exists e, f y = Raise e /\ P e)) ->
  l !! i = Some x ->
  f x = Raise e0 ->
  exists e, rmap f l = Raise e /\ P e.
Proof.
  intros Hf. revert i. induction l as [|y l IH]; intros i Hi Hx; [done|].
  cbn [rmap].
  destruct (Hf y) as [[r Hy]|(e & Hy & He)]; rewrite Hy; cbn [rbind];
    [|eauto].
  destruct i as [|i]; simpl in Hi.
  - injection Hi as ->. congruence.
  - destruct (IH i Hi Hx) as (e & -> & He). eauto.
Qed.

Lemma zip_decimals (ds es : list Dec.t) :
  zip (EDec <$> ds) (EDec <$> es)
  = (fun ab => (EDec ab.1, EDec ab.2)) <$> zip ds es.
Proof.
  revert es. induction ds as [|d ds IH]; intros [|e es]; csimpl; try done.
  by rewrite IH.
Qed.

Lemma py_div_decimals a b :
  py_div ctx (EDec a) (EDec b)
  = let? r := dec_div ctx (VDecimal a) (VDecimal b) in Ok (EDec r).
Proof. reflexivity. Qed.

(** X16: [div] by an array that holds a zero does not return a list: the
    quotient at the zero raises the ValueError of [dec_div], unless a
    quotient before it overflows; either way the failure reaches the caller
    as it is, not as StabilizeError, and nothing is cached. *)
Theorem div_by_array_with_zero a b A B ds es i x z st :
  heap st !! a = Some A ->
  heap st !! b = Some B ->
  data A = EDec <$> ds ->
  data B = EDec <$> es ->
  length ds = length es ->
  ds !! i = Some x ->
  es !! i = Some z ->
  Dec.is_zero z = true ->
  cache_of "div" st !! [KRef a; KRef b] = None ->
  exists e,
    arith_failure e
    /\ call_method "div" (div ctx float_of) (VRef a) [VRef b] st
       = (Raise e, st).
Proof.
  intros Ha Hb HdA HdB Hlen Hx Hz Hzero Hc.
  destruct (rmap_raises arith_failure
              (fun ab : Dec.t * Dec.t =>
                 py_div ctx (EDec ab.1) (EDec ab.2))
              (zip ds es) i (x, z) (ValueError dec_div_msg))
    as (e & He & Hfail).
  - intros [y1 y2]. cbn [fst snd]. rewrite py_div_decimals.
    destruct (dec_div_cases y1 y2) as [[r ->]|(e & -> & He)]; cbn [rbind];
      eauto.
  - rewrite lookup_zip_with, Hx, Hz. reflexivity.
  - cbn [fst snd]. by rewrite py_div_decimals, dec_div_decimals, Hzero.
  - exists e. split; [done|].
    unfold call_method. simpl get_array. rewrite Ha. unfold div.
    rewrite (stabilize_miss_raise _ _ _ _ e st st (hash_refs a b) Hc).
    + by rewrite (arith_failure_not_ZeroDivisionError e Hfail).
    + rewrite (arith_func_arrays _ (VRef a) (VRef b) A B st Ha Hb).
      rewrite HdA, HdB, !length_fmap.
      apply Nat.eqb_eq in Hlen. rewrite Hlen. cbn [negb].
      rewrite zip_decimals, rmap_fmap. cbn [fst snd].
      by rewrite He.
Qed.

Lemma add_scalar_ints k xs :
  ctx_ok ctx ->
  Forall (fun x => Z.abs (x + k) < 10 ^ Dec.prec ctx) xs ->
  rmap (fun a => py_add ctx a (EDec (Dec.of_Z k))) (EDec <$> (Dec.of_Z <$> xs))
  = Ok (EDec <$> ((fun x => Dec.of_Z (x + k)) <$> xs)).
Proof.
  intros Hc H. induction H as [|x xs Hx _ IH]; csimpl; [done|].
  by rewrite add_of_Z, IH.
Qed.

Lemma hash_ref_int r k : hash_args [VRef r; VInt k] = Some [KRef r; KNum k 1].
Proof.
  unfold hash_args. simpl. unfold num_key.
  rewrite Qred_identity; [reflexivity|]. simpl. apply Z.gcd_1_r.
Qed.

(** X19: [add] with a scalar: an integer added to an array of integers
    gives the list of the Decimals of x + k, element by element, as long as
    the sums fit the precision. *)
Theorem add_scalar_to_array r k xs st :
  ctx_ok ctx ->
  heap st !! r = Some (array1_of_ints xs) ->
  Forall (fun x => Z.abs (x + k) < 10 ^ Dec.prec ctx) xs ->
  cache_of "add" st !! [KRef r; KNum k 1] = None ->
  let sums := VList ((fun x => VDecimal (Dec.of_Z (x + k))) <$> xs) in
  call_method "add" (add ctx float_of) (VRef r) [VInt k] st
  = (Ok sums, cache_put "add" [KRef r; KNum k 1] sums st).
Proof.
  intros Hc Hr Hxs Hmiss sums. unfold call_method. simpl get_array.
  rewrite Hr. unfold add.
  apply stabilize_miss_ok; [apply hash_ref_int|done|].
  unfold arith_func. simpl get_array. rewrite Hr.
  unfold bind, _elementwise. simpl get_array. simpl _to_decimal.
  cbn [rbind data to_type cond array1_of_ints array1].
  rewrite (add_scalar_ints k xs Hc Hxs). unfold lift.
  rewrite elem_value_decs, condint_list_decimals. unfold ret, sums.
  by rewrite <- list_fmap_compose.
Qed.

(** ** Arrays: indexing *)

Lemma py_index_in_range len idx :
  0 <= idx < Z.of_nat len -> py_index len idx = Ok (Z.to_nat idx).
Proof.
  intros H. unfold py_index.
  destruct (0 <=? idx) eqn:E1; [|lia].
  destruct (idx <? Z.of_nat len) eqn:E2; [done|lia].
Qed.

(** X17: an assignment [a[i] = v] to an [Array1] at an index in range
    stores the Decimal of v: reading the index afterwards gives that
    Decimal through [condint], the other indices read as before, and the
    length stays. *)
Theorem setitem_then_getitem r A idx v d st :
  heap st !! r = Some A ->
  cls A = CArray1 ->
  _to_decimal ctx v = Ok d ->
  0 <= idx < Z.of_nat (length (data A)) ->
  let A' := Array CArray1 (<[Z.to_nat idx := EDec d]> (data A))
                  (to_type A) (cond A) in
  let st' := State (<[r := A']> (heap st)) (caches st) in
  setitem ctx float_of (VRef r) (IInt idx) v st = (Ok VNone, st')
  /\ getitem float_of (VRef r) (IInt idx) st'
     = (condint float_of (VDecimal d) (to_type A) (cond A), st')
  /\ length (data A') = length (data A)
  /\ (forall j, 0 <= j < Z.of_nat (length (data A)) -> j <> idx ->
        getitem float_of (VRef r) (IInt j) st'
        = ((getitem float_of (VRef r) (IInt j) st).1, st')).
Proof.
  intros Hr Hcls Hd Hidx A' st'.
  pose proof (py_index_in_range _ _ Hidx) as Hi.
  assert (Hr' : get_array (VRef r) st' = Some A').
  { simpl. apply list_lookup_insert_eq. by eapply lookup_lt_Some. }
  assert (Hr0 : get_array (VRef r) st = Some A) by exact Hr.
  assert (Hlen : length (data A') = length (data A)).
  { simpl. apply length_insert. }
  repeat split.
  - unfold setitem. simpl get_array. rewrite Hr, Hcls. cbn [convert].
    unfold in_item. rewrite Hd. cbn [rbind list_setitem]. by rewrite Hi.
  - unfold getitem. rewrite Hr'. unfold getitem_func, list_getitem.
    rewrite Hlen, Hi. cbn [rbind]. simpl data.
    rewrite list_lookup_insert_eq by lia. reflexivity.
  - exact Hlen.
  - intros j Hj Hne. unfold getitem. rewrite Hr', Hr0.
    cbn [fst]. f_equal. unfold getitem_func, list_getitem. rewrite Hlen.
    rewrite (py_index_in_range _ _ Hj). cbn [rbind]. simpl data.
    rewrite list_lookup_insert_ne by lia.
    destruct (data A !! Z.to_nat j); [|done].
    unfold out. cbn [cls A']. by rewrite Hcls.
Qed.

(** X20: an index reads from the end when it is negative, [a[-k]] being
    [a[len - k]], and an index outside [-len, len) raises IndexError. *)
Theorem getitem_index_rules r A idx st :
  heap st !! r = Some A ->
  let n := Z.of_nat (length (data A)) in
  (idx < - n \/ n <= idx ->
   getitem float_of (VRef r) (IInt idx) st = (Raise IndexError, st))
  /\ (- n <= idx < 0 ->
      getitem float_of (VRef r) (IInt idx) st
      = getitem float_of (VRef r) (IInt (n + idx)) st).
Proof.
  intros Hr n. unfold getitem. simpl get_array. rewrite Hr.
  unfold getitem_func, list_getitem, py_index. fold n. split; intros H.
  - destruct (0 <=? idx) eqn:E1, (idx <? n) eqn:E2; simpl; try lia;
      destruct (- n <=? idx) eqn:E3, (idx <? 0) eqn:E4; simpl; try lia;
      reflexivity.
  - destruct (0 <=? idx) eqn:E1; [lia|]. simpl.
    destruct (- n <=? idx) eqn:E3; [|lia].
    destruct (idx <? 0) eqn:E4; [|lia]. simpl.
    destruct (0 <=? n + idx) eqn:E5; [|lia].
    destruct (n + idx <? n) eqn:E6; [|lia]. reflexivity.
Qed.

(** ** Stale results and shared keys *)

Lemma stabilize_ok_cached name func args r st st1 :
  stabilize name func args [] st = (Ok r, st1) ->
  exists key, hash_args args = Some key /\ cache_of name st1 !! key = Some r.
Proof.
  unfold stabilize, wrapper.
  destruct (hash_args args) as [key|]; [|discriminate].
  destruct (cache_of name st !! key) as [r0|] eqn:Hc.
  - intros [= -> ->]. eauto.
  - destruct (func args st) as [[r1|e] st'].
    + intros [= -> <-]. exists key. split; [done|].
      by rewrite cache_of_put, lookup_insert_eq.
    + by destruct (is_ZeroDivisionError e).
Qed.

Lemma method_fun_stabilize m :
  exists func, method_fun ctx float_of m = stabilize (method_name m) func.
Proof. destruct m; eexists; reflexivity. Qed.

Lemma setitem_caches self idx v st :
  caches (setitem ctx float_of self idx v st).2 = caches st.
Proof.
  unfold setitem. destruct self; try done.
  destruct (get_array (VRef r) st) as [A|]; [|done].
  by destruct (rbind _ _).
Qed.

Lemma setitem_keeps_arrays self idx v x A st :
  get_array x st = Some A ->
  exists A', get_array x (setitem ctx float_of self idx v st).2 = Some A'.
Proof.
  intros Hx. unfold setitem. destruct self; eauto.
  destruct (get_array (VRef r) st) as [R|]; [|eauto].
  destruct (rbind _ _) as [l|]; [|eauto]. simpl.
  destruct x; try discriminate. simpl in *.
  destruct (decide (r0 = r)) as [->|Hne].
  - eexists. apply list_lookup_insert_eq. by eapply lookup_lt_Some.
  - exists A. by rewrite list_lookup_insert_ne.
Qed.

(** X18: the stale result. Once a method call on an array has returned,
    an assignment to an index or to a slice of any array changes no cache,
    so the same call afterwards returns the result computed before the
    assignment. *)
Theorem method_result_survives_setitem m recv args r st st1 self idx v :
  call_method (method_name m) (method_fun ctx float_of m) recv args st
  = (Ok r, st1) ->
  let st2 := (setitem ctx float_of self idx v st1).2 in
  call_method (method_name m) (method_fun ctx float_of m) recv args st2
  = (Ok r, st2).
Proof.
  intros Hcall st2. unfold call_method in *.
  destruct (get_array recv st) as [R|] eqn:Hrecv; [|discriminate].
  destruct (method_fun_stabilize m) as [func Hm]. rewrite Hm in *.
  destruct (stabilize_ok_cached _ _ _ _ _ _ Hcall) as (key & Hk & Hc).
  assert (Hheap : heap st1 = heap st).
  { pose proof (method_call_state m (recv :: args) st) as H.
    rewrite Hm, Hcall in H. simpl in H.
    destruct H as [->|(k & r' & _ & -> & _)]; reflexivity. }
  assert (Hrecv1 : get_array recv st1 = Some R).
  { destruct recv; try discriminate. simpl in *. by rewrite Hheap. }
  destruct (setitem_keeps_arrays self idx v recv R st1 Hrecv1) as [R' HR'].
  fold st2 in HR'. rewrite HR'.
  apply stabilize_hit with key; [done|].
  unfold cache_of, st2. by rewrite setitem_caches.
Qed.

Lemma hash_equal_numbers x y p q :
  num_to_Q x = Some p -> num_to_Q y = Some q -> Qeq p q ->
  hash_args [x] = hash_args [y].
Proof.
  intros Hx Hy Hpq.
  assert (Hh : forall z w, num_to_Q z = Some w ->
                           hash_value z = Some (num_key w)).
  { intros z w Hz. destruct z; simpl in *; try discriminate;
      by injection Hz as <-. }
  unfold hash_args. simpl. rewrite (Hh x p Hx), (Hh y q Hy). simpl.
  unfold num_key. by rewrite (Qred_complete p q Hpq).
Qed.

(** X21: numbers that are equal share a cache entry, whatever their
    types: after a wrapped call on x has returned, a call on any y with
    the same exact value (5 and 5.0, 1 and True, Decimal("2.0") and 2)
    returns the result cached for x. *)
Theorem equal_numbers_share_cache_entry name func func' x y p q r st st' :
  num_to_Q x = Some p ->
  num_to_Q y = Some q ->
  Qeq p q ->
  stabilize name func [x] [] st = (Ok r, st') ->
  stabilize name func' [y] [] st' = (Ok r, st').
Proof.
  intros Hx Hy Hpq Hcall.
  apply (stabilize_second_call _ _ _ _ _ _ Hcall).
  symmetry. by apply (hash_equal_numbers x y p q).
Qed.

(** ** Fixed divisors, and the domain of ln *)


Lemma leb_zero d :
  Dec.leb d (Dec.of_Z 0) = Dec.is_zero d || Dec.sign d.
Proof.
  unfold Dec.leb, Dec.cmp. simpl.
  destruct (Dec.is_zero d); [reflexivity|].
  destruct (Dec.sign d); reflexivity.
Qed.

(** X23: [ln] of zero or of a negative number raises
    ValueError("ln undefined for non-positive numbers"), before any
    arithmetic and without a cache entry. *)
Theorem ln_rejects_nonpositive x d key st :
  _to_decimal ctx x = Ok d ->
  Dec.is_zero d || Dec.sign d = true ->
  hash_args [x] = Some key ->
  cache_of "ln" st !! key = None ->
  ln ctx float_of loop_bound [x] [] st = (Raise (ValueError ln_msg), st).
Proof.
  intros Hx Hd Hk Hc. unfold ln.
  rewrite (stabilize_miss_raise _ _ _ _ (ValueError ln_msg) st st Hk Hc);
    [done|].
  simpl. unfold lift, ln_func. rewrite Hx. cbn [rbind].
  by rewrite leb_zero, Hd.
Qed.

End Properties.

(** * The package at concrete inputs *)



Lemma ctx50_ok : ctx_ok ctx50.
Proof. unfold ctx_ok, ctx50. simpl. unfold Dec.Etiny, Dec.Etop. simpl. lia. Qed.

(** [percentage(1, 0)]: the zero divisor reaches [dec_div] inside a wrapped
    call, and what the caller sees is the ValueError of [dec_div], not
    StabilizeError. *)
Lemma percentage_zero_total_not_translated :
  percentage ctx50 py_float [VInt 1; VInt 0] [] initial
  = (Raise (ValueError dec_div_msg), initial)
  /\ ValueError dec_div_msg <> StabilizeError stabilize_msg.
Proof. split; [vm_compute; reflexivity|discriminate]. Qed.

Lemma stabilize_translates_ZeroDivisionError_only_witness :
  dec_div ctx50 (VInt 1) (VInt 0) = Raise (ValueError dec_div_msg)
  /\ percentage ctx50 py_float [VInt 1; VInt 0] [] initial
     = (Raise (ValueError dec_div_msg), initial).
Proof.
  split.
  - apply (proj1 (stabilize_translates_ZeroDivisionError_only ctx50)
             (VInt 1) (VInt 0) (Dec.of_Z 1) (Dec.of_Z 0)); reflexivity.
  - unfold percentage.
    apply (proj2 (stabilize_translates_ZeroDivisionError_only ctx50)
             "percentage" _ [VInt 1; VInt 0] [KNum 1 1; KNum 0 1]
             (ValueError dec_div_msg) initial initial); reflexivity.
Defined.

(** [tan(0)] *)
Lemma tan_always_raises_TypeError_witness :
  tan ctx50 py_float 100 [VInt 0] [] initial
  = (Raise (TypeError (keyword_msg "to_type")), initial).
Proof.
  apply (tan_always_raises_TypeError ctx50 py_float 100 (VInt 0) initial).
  reflexivity.
Defined.





(** [Array1([1, 2, 3]).to_list()] and [Array1([1.0, 2.0]).to_list()] hold
    Decimals, not ints. *)
Lemma to_list_does_not_return_ints :
  ((let* a := Array1 ctx50 py_float [VInt 1; VInt 2; VInt 3] None None in
    call_to_list py_float a) initial).1
  = Ok (VList [VDecimal (Dec.mk false 1 0); VDecimal (Dec.mk false 2 0);
               VDecimal (Dec.mk false 3 0)])
  /\ ((let* a := Array1 ctx50 py_float
                        [VFloat (PyFloat false 4503599627370496 (-52));
                         VFloat float_two] None None in
       call_to_list py_float a) initial).1
     = Ok (VList [VDecimal (Dec.mk false 1 0); VDecimal (Dec.mk false 2 0)])
  /\ VDecimal (Dec.mk false 1 0) <> VInt 1.
Proof. repeat split; discriminate. Qed.

Lemma to_list_returns_decimals_witness :
  (let* a := Array1 ctx50 py_float [VInt 1; VInt 2; VInt 3] None None in
   call_to_list py_float a) initial
  = (Ok (VList [VDecimal (Dec.mk false 1 0); VDecimal (Dec.mk false 2 0);
                VDecimal (Dec.mk false 3 0)]),
     State [array1 [Dec.mk false 1 0; Dec.mk false 2 0; Dec.mk false 3 0]] ∅).
Proof.
  apply (proj1 (to_list_returns_decimals ctx50 py_float)
           [VInt 1; VInt 2; VInt 3]
           [Dec.mk false 1 0; Dec.mk false 2 0; Dec.mk false 3 0] initial).
  reflexivity.
Defined.



(** The session [A = Array2([[1], [2]]); B = Array2([[3], [4]]); A.add(B);
    B[0:1] = [7, 8]]: afterwards [A] holds two items and [B] three, and
    [A.add(B)] returns the list cached by the first call instead of
    raising. *)
Lemma stale_result_hides_length_mismatch :
  let st :=
    run ctx50 py_float
        [ANew CArray2 [VList [VInt 1]; VList [VInt 2]] None None;
         ANew CArray2 [VList [VInt 3]; VList [VInt 4]] None None;
         ACall MAdd (VRef 0) [VRef 1];
         ASet (VRef 1) (ISlice (Some 0) (Some 1)) (VList [VInt 7; VInt 8])]
        initial in
  (length <$> (data <$> heap st)) = [2; 3]%nat
  /\ call_method "add" (add ctx50 py_float) (VRef 0) [VRef 1] st
     = (Ok (VList [VList [VDecimal (Dec.of_Z 1); VDecimal (Dec.of_Z 3)];
                   VList [VDecimal (Dec.of_Z 2); VDecimal (Dec.of_Z 4)]]),
        st)
  /\ reachable ctx50 py_float st.
Proof.
  split; [reflexivity|]. split; [reflexivity|]. eexists. reflexivity.
Qed.




(** [is_harshad(-12)] *)
Lemma is_harshad_negative_raises_witness :
  is_harshad [VInt (-12)] [] initial
  = (Raise (ValueError minus_literal_msg), initial).
Proof.
  apply (proj2 (is_harshad_negative_raises 12 initial eq_refl)).
  reflexivity.
Defined.

(** ** The further properties at concrete inputs *)

(** [is_harshad(0)] *)
Lemma is_harshad_zero_stabilize_error_witness :
  is_harshad [VInt 0] [] initial
  = (Raise (StabilizeError stabilize_msg), initial).
Proof.
  apply (is_harshad_zero_stabilize_error (VInt 0) [KNum 0 1] initial);
    reflexivity.
Defined.



(** [collatz_steps(0)] *)
Lemma collatz_steps_nonpositive_never_returns_witness :
  collatz_steps_func 1000 (VInt 0) = Raise Diverges.
Proof. apply (collatz_steps_nonpositive_never_returns 1000 0). lia. Defined.

(** [collatz_steps(8)] *)
Lemma collatz_steps_power_of_two_witness :
  collatz_steps_func 10 (VInt 8) = Ok (VInt 3).
Proof. apply (collatz_steps_power_of_two 10 3). lia. Defined.

(** [fact(4)] and [fact(5)], [fact(-1)] *)
Lemma fact_recurrence_witness :
  (exists f,
     fact_func py_float (VInt 4) None None = Ok (VInt f)
     /\ fact_func py_float (VInt (4 + 1)) None None = Ok (VInt ((4 + 1) * f)))
  /\ fact_func py_float (VInt (-1)) None None
     = Raise (ValueError "Factorial not defined for negatives").
Proof.
  split.
  - apply (proj1 (proj2 (fact_recurrence py_float)) 4). lia.
  - apply (proj2 (proj2 (fact_recurrence py_float)) (-1)). lia.
Defined.

(** [log(3, 4)], [pythagoras(3, 4)] *)
Lemma keyword_callers_never_return_witness :
  (exists e, log ctx50 py_float 100 [VInt 3; VInt 4] [] initial
             = (Raise e, initial))
  /\ (exists e, pythagoras ctx50 py_float [VInt 3; VInt 4] [] initial
                = (Raise e, initial)).
Proof.
  destruct (keyword_callers_never_return ctx50 py_float 100
              [VInt 3; VInt 4] initial eq_refl eq_refl eq_refl)
    as (H1 & H2 & _).
  split; assumption.
Defined.

(** [power(0, -1)] *)
Lemma power_zero_base_negative_exponent_witness :
  power_func ctx50 py_float (VInt 0) (VInt (-1)) None None
  = Raise (ValueError dec_div_msg).
Proof.
  apply (power_zero_base_negative_exponent ctx50 py_float (VInt 0) (VInt (-1))
           (Dec.of_Z 0) (-1)); reflexivity.
Defined.

(** [power(2, 10)] *)
Lemma power_exact_on_naturals_witness :
  power_func ctx50 py_float (VInt 2) (VInt 10) None None
  = Ok (VDecimal (Dec.of_Z 1024)).
Proof.
  apply (power_exact_on_naturals ctx50 py_float 2 10);
    [exact ctx50_ok|lia|lia|reflexivity].
Defined.

(** [sqrt(0)] and [cbrt(0)] *)
Lemma roots_of_zero_fail_witness :
  sqrt_func ctx50 py_float (VInt 0) None None = Raise (ValueError dec_div_msg)
  /\ cbrt_func ctx50 py_float (VInt 0) None None
     = Raise (ValueError dec_div_msg).
Proof.
  apply (roots_of_zero_fail ctx50 py_float (VInt 0) (Dec.of_Z 0) None None);
    reflexivity.
Defined.

(** [fibonacci(7)] *)
Lemma fibonacci_exact_witness :
  fibonacci_func ctx50 py_float (VInt 7) None None
  = Ok (VList [VDecimal (Dec.of_Z 0); VDecimal (Dec.of_Z 1);
               VDecimal (Dec.of_Z 1); VDecimal (Dec.of_Z 2);
               VDecimal (Dec.of_Z 3); VDecimal (Dec.of_Z 5);
               VDecimal (Dec.of_Z 8)]).
Proof.
  apply (fibonacci_exact ctx50 py_float 7); [exact ctx50_ok|reflexivity].
Defined.

(** [Array1([]).mean()] *)
Lemma mean_of_empty_array_witness :
  call_method "mean" (mean ctx50 py_float) (VRef 0) [] (two_arrays [] [])
  = (Raise (ValueError mean_msg), two_arrays [] []).
Proof.
  apply (mean_of_empty_array ctx50 py_float 0 (array1 [])
           (two_arrays [] [])); reflexivity.
Defined.


(** [Array1([1, 2, 3]).sum()] *)
Lemma sum_of_naturals_witness :
  sum_func ctx50 py_float (array1_of_ints [1; 2; 3])
  = Ok (VDecimal (Dec.of_Z 6)).
Proof.
  apply (sum_of_naturals ctx50 py_float [1; 2; 3]);
    [exact ctx50_ok|repeat constructor; lia|reflexivity].
Defined.

(** [Array1([1, 2, 3]).cumsum()] *)
Lemma cumsum_of_naturals_witness :
  cumsum_func ctx50 py_float (array1_of_ints [1; 2; 3])
  = Ok (VList [VDecimal (Dec.of_Z 1); VDecimal (Dec.of_Z 3);
               VDecimal (Dec.of_Z 6)]).
Proof.
  apply (proj1 (cumsum_of_naturals ctx50 py_float [1; 2; 3] ctx50_ok
                  ltac:(repeat constructor; lia) eq_refl)).
Defined.

(** [Array1([2, 4, 6]).div(Array1([0, 1, 2]))] *)
Lemma div_by_array_with_zero_witness :
  exists e,
    arith_failure e
    /\ call_method "div" (div ctx50 py_float) (VRef 0) [VRef 1]
                   (two_arrays [2; 4; 6] [0; 1; 2])
       = (Raise e, two_arrays [2; 4; 6] [0; 1; 2]).
Proof.
  apply (div_by_array_with_zero ctx50 py_float 0 1
           (array1_of_ints [2; 4; 6]) (array1_of_ints [0; 1; 2])
           (Dec.of_Z <$> [2; 4; 6]) (Dec.of_Z <$> [0; 1; 2])
           0 (Dec.of_Z 2) (Dec.of_Z 0)); reflexivity.
Defined.

(** [a = Array1([1, 2, 3]); a[1] = 9; a[1]] *)
Lemma setitem_then_getitem_witness :
  setitem ctx50 py_float (VRef 0) (IInt 1) (VInt 9) (two_arrays [1; 2; 3] [])
  = (Ok VNone, two_arrays [1; 9; 3] [])
  /\ getitem py_float (VRef 0) (IInt 1) (two_arrays [1; 9; 3] [])
     = (Ok (VDecimal (Dec.of_Z 9)), two_arrays [1; 9; 3] []).
Proof.
  destruct (setitem_then_getitem ctx50 py_float 0
              (array1_of_ints [1; 2; 3]) 1 (VInt 9)
              (Dec.of_Z 9) (two_arrays [1; 2; 3] [])
              eq_refl eq_refl eq_refl
              ltac:(split; [apply Z.leb_le|apply Z.ltb_lt]; reflexivity))
    as (H1 & H2 & _).
  split; [exact H1|exact H2].
Defined.

(** [a.add(b)], then [a[0] = 100], then [a.add(b)] again: still 5, 7, 9 *)
Lemma method_result_survives_setitem_witness :
  call_method "add" (add ctx50 py_float) (VRef 0) [VRef 1]
    (setitem ctx50 py_float (VRef 0) (IInt 0) (VInt 100)
       (call_method "add" (add ctx50 py_float) (VRef 0) [VRef 1]
          (two_arrays [1; 2; 3] [4; 5; 6])).2).2
  = (Ok (VList [VDecimal (Dec.of_Z 5); VDecimal (Dec.of_Z 7);
                VDecimal (Dec.of_Z 9)]),
     (setitem ctx50 py_float (VRef 0) (IInt 0) (VInt 100)
        (call_method "add" (add ctx50 py_float) (VRef 0) [VRef 1]
           (two_arrays [1; 2; 3] [4; 5; 6])).2).2).
Proof.
  apply (method_result_survives_setitem ctx50 py_float MAdd (VRef 0) [VRef 1]
           _ (two_arrays [1; 2; 3] [4; 5; 6])).
  reflexivity.
Defined.

(** [Array1([1, 2, 3]).add(10)] *)
Lemma add_scalar_to_array_witness :
  (call_method "add" (add ctx50 py_float) (VRef 0) [VInt 10]
               (two_arrays [1; 2; 3] [])).1
  = Ok (VList [VDecimal (Dec.of_Z 11); VDecimal (Dec.of_Z 12);
               VDecimal (Dec.of_Z 13)]).
Proof.
  rewrite (add_scalar_to_array ctx50 py_float 0 10 [1; 2; 3]
             (two_arrays [1; 2; 3] []) ctx50_ok eq_refl
             ltac:(repeat constructor; apply Z.ltb_lt; reflexivity) eq_refl).
  reflexivity.
Defined.

(** [a = Array1([1, 2, 3])]: [a[3]] and [a[-1]] *)
Lemma getitem_index_rules_witness :
  getitem py_float (VRef 0) (IInt 3) (two_arrays [1; 2; 3] [])
  = (Raise IndexError, two_arrays [1; 2; 3] [])
  /\ getitem py_float (VRef 0) (IInt (-1)) (two_arrays [1; 2; 3] [])
     = getitem py_float (VRef 0) (IInt (3 + -1)) (two_arrays [1; 2; 3] []).
Proof.
  destruct (getitem_index_rules py_float 0
              (array1_of_ints [1; 2; 3]) 3
              (two_arrays [1; 2; 3] []) eq_refl) as [H1 _].
  destruct (getitem_index_rules py_float 0
              (array1_of_ints [1; 2; 3]) (-1)
              (two_arrays [1; 2; 3] []) eq_refl) as [_ H2].
  split; [apply H1; right; apply Z.leb_le; reflexivity
         |apply H2; split; [apply Z.leb_le|apply Z.ltb_lt]; reflexivity].
Defined.

(** [fact(5)], then [fact(5.0)] *)
Lemma equal_numbers_share_cache_entry_witness :
  fact py_float [VFloat (PyFloat false 5 0)] []
       (fact py_float [VInt 5] [] initial).2
  = (Ok (VInt 120), (fact py_float [VInt 5] [] initial).2).
Proof.
  apply (equal_numbers_share_cache_entry "fact"
           (unary (fun n t c => lift (fact_func py_float n t c)))
           (unary (fun n t c => lift (fact_func py_float n t c)))
           (VInt 5) (VFloat (PyFloat false 5 0))
           (inject_Z 5) (float_to_Q (PyFloat false 5 0))
           (VInt 120) initial); reflexivity.
Defined.


(** [ln(-2)] *)
Lemma ln_rejects_nonpositive_witness :
  ln ctx50 py_float 100 [VInt (-2)] [] initial
  = (Raise (ValueError ln_msg), initial).
Proof.
  apply (ln_rejects_nonpositive ctx50 py_float 100 (VInt (-2)) (Dec.of_Z (-2))
           [KNum (-2) 1] initial); reflexivity.
Defined.
